(** * Locked-In: a shallow embedding of the extension's background script
    ([src/scripts/tabManager.js]), its lock page ([src/unnamed/part_000])
    and its task page ([src/scripts/pages/task.js]), with the properties
    of the specification proved or refuted against it. *)

From Stdlib Require Import ZArith String Ascii Bool.
From stdpp Require Import base list gmap strings sorting.

Open Scope Z_scope.

(* ================================================================== *)
(** ** JavaScript numbers *)

(** Timestamps and durations are integral milliseconds.  A value read
    from storage that is absent is [undefined], which arithmetic coerces
    to [NaN]; [NaN] absorbs every arithmetic operation. *)
Inductive num := Num (z : Z) | NaN.

Definition to_num (v : option num) : num :=
  match v with Some n => n | None => NaN end.

Definition num_add (a b : num) : num :=
  match a, b with Num x, Num y => Num (x + y) | _, _ => NaN end.

Definition num_sub (a b : num) : num :=
  match a, b with Num x, Num y => Num (x - y) | _, _ => NaN end.

(* ================================================================== *)
(** ** Timer (tabManager.js, lines 215-246) *)

Module Timer.

(** The part of the background state the timer touches: the single
    alarm named "LockedInSession" (its [when], [None] when no such alarm
    exists) and the two keys of [chrome.storage.local]. *)
Record TimerState := {
  alarm : option num;
  StartingTime : option num;
  RemainingTime : option num
}.

Inductive Message :=
| START_TIMER (duration : num)
| PAUSE_TIMER
| CONTINUE_TIMER
| OTHER_MESSAGE.

(** [chrome.runtime.onMessage] listener.  [now] is [Date.now()] while the
    handler (and its storage callback) runs. *)
Definition onMessage (now : Z) (m : Message) (st : TimerState) : TimerState :=
  match m with
  | START_TIMER duration =>
      (* chrome.alarms.create("LockedInSession", {when: Date.now() + message.duration});
         chrome.storage.local.set({StartingTime: Date.now()}) *)
      {| alarm := Some (num_add (Num now) duration);
         StartingTime := Some (Num now);
         RemainingTime := RemainingTime st |}
  | PAUSE_TIMER =>
      (* chrome.alarms.clear("LockedInSession"); then, in the storage callback,
         elapsedTime = Date.now() - data.StartingTime;
         RemainingTime = data.RemainingTime - elapsedTime *)
      let elapsedTime := num_sub (Num now) (to_num (StartingTime st)) in
      {| alarm := None;
         StartingTime := StartingTime st;
         RemainingTime := Some (num_sub (to_num (RemainingTime st)) elapsedTime) |}
  | CONTINUE_TIMER =>
      (* alarms.create("LockedInSession", {when: Date.now() + data.RemainingTime});
         storage.local.set({StartingTime: Date.now()}) *)
      {| alarm := Some (num_add (Num now) (to_num (RemainingTime st)));
         StartingTime := Some (Num now);
         RemainingTime := RemainingTime st |}
  | OTHER_MESSAGE => st
  end.

(** A sequence of commands, each with the time at which it is handled. *)
Fixpoint run (cmds : list (Z * Message)) (st : TimerState) : TimerState :=
  match cmds with
  | [] => st
  | (now, m) :: rest => run rest (onMessage now m st)
  end.

Definition empty_storage : TimerState :=
  {| alarm := None; StartingTime := None; RemainingTime := None |}.


(** A stored value that is absent or NaN. *)
Definition no_number (v : option num) : Prop := v = None \/ v = Some NaN.

End Timer.

Close Scope Z_scope.

(* ================================================================== *)
(** ** URLs *)

(** The fields of a parsed [URL] object that the code reads. *)
Record URL := { protocol : string; hostname : string }.

Open Scope string_scope.

(** [encodeURIComponent] on an ASCII string (tab URLs are serialised by
    the browser in ASCII): the characters A-Z a-z 0-9 - _ . ! ~ * ' ( )
    are kept, every other byte becomes [%XY] with upper-case hex digits. *)
Definition uri_unreserved (c : ascii) : bool :=
  let n := nat_of_ascii c in
  (Nat.leb 65 n && Nat.leb n 90) || (Nat.leb 97 n && Nat.leb n 122)
  || (Nat.leb 48 n && Nat.leb n 57)
  || existsb (fun d => Ascii.eqb c d) ["-"; "_"; "."; "!"; "~"; "*"; "'"; "("; ")"]%char.

Definition hex_digit (n : nat) : ascii :=
  if Nat.ltb n 10 then ascii_of_nat (48 + n) else ascii_of_nat (55 + n).

Fixpoint encodeURIComponent (s : string) : string :=
  match s with
  | EmptyString => EmptyString
  | String c rest =>
      if uri_unreserved c then String c (encodeURIComponent rest)
      else String "%" (String (hex_digit (nat_of_ascii c / 16))
             (String (hex_digit (nat_of_ascii c mod 16)) (encodeURIComponent rest)))
  end.

(** The decoding side, [new URLSearchParams(search).get(name)] on the
    lock page (application/x-www-form-urlencoded parsing). *)
Definition hex_value (c : ascii) : option nat :=
  let n := nat_of_ascii c in
  if Nat.leb 48 n && Nat.leb n 57 then Some (n - 48)
  else if Nat.leb 65 n && Nat.leb n 70 then Some (n - 55)
  else if Nat.leb 97 n && Nat.leb n 102 then Some (n - 87)
  else None.

Fixpoint percent_decode (s : string) : string :=
  match s with
  | EmptyString => EmptyString
  | String c rest =>
      if Ascii.eqb c "%" then
        match rest with
        | String h1 (String h2 rest') =>
            match hex_value h1, hex_value h2 with
            | Some a, Some b => String (ascii_of_nat (16 * a + b)) (percent_decode rest')
            | _, _ => String c (percent_decode rest)
            end
        | _ => String c (percent_decode rest)
        end
      else String c (percent_decode rest)
  end.

Fixpoint plus_to_space (s : string) : string :=
  match s with
  | EmptyString => EmptyString
  | String c rest => String (if Ascii.eqb c "+" then " " else c) (plus_to_space rest)
  end.

Definition form_decode (s : string) : string := percent_decode (plus_to_space s).

Fixpoint split_on (sep : ascii) (s : string) : list string :=
  match s with
  | EmptyString => [EmptyString]
  | String c rest =>
      if Ascii.eqb c sep then EmptyString :: split_on sep rest
      else match split_on sep rest with
           | [] => [String c EmptyString]
           | x :: xs => String c x :: xs
           end
  end.

(** Split a sequence at its first '='; no '=' gives an empty value. *)
Fixpoint break_eq (s : string) : string * string :=
  match s with
  | EmptyString => (EmptyString, EmptyString)
  | String c rest =>
      if Ascii.eqb c "=" then (EmptyString, rest)
      else let (n, v) := break_eq rest in (String c n, v)
  end.

Definition strip_question (s : string) : string :=
  match s with
  | String c rest => if Ascii.eqb c "?" then rest else s
  | EmptyString => s
  end.

Definition URLSearchParams (search : string) : list (string * string) :=
  map (fun seq => let (n, v) := break_eq seq in (form_decode n, form_decode v))
      (List.filter (fun seq => negb (String.eqb seq "")) (split_on "&" (strip_question search))).

Definition searchParams_get (params : list (string * string)) (name : string)
  : option string :=
  match find (fun p => String.eqb (fst p) name) params with
  | Some (_, v) => Some v
  | None => None
  end.

(** [window.location.search] of a page address: "?" followed by the query
    (up to the fragment), or "" when the query is empty. *)
Fixpoint upto_hash (s : string) : string :=
  match s with
  | EmptyString => EmptyString
  | String c rest => if Ascii.eqb c "#" then EmptyString else String c (upto_hash rest)
  end.

Fixpoint after_question (s : string) : option string :=
  match s with
  | EmptyString => None
  | String c rest => if Ascii.eqb c "?" then Some rest else after_question rest
  end.

Definition location_search (href : string) : string :=
  match after_question (upto_hash href) with
  | Some q => if String.eqb q "" then "" else "?" ++ q
  | None => ""
  end.

(** Every character of [s] satisfies [p]. *)
Fixpoint string_forall (p : ascii -> bool) (s : string) : bool :=
  match s with
  | EmptyString => true
  | String c rest => p c && string_forall p rest
  end.

Definition not_char (d : ascii) (c : ascii) : bool := negb (Ascii.eqb c d).

(** The characters that the form decoding, the query split and the
    address split treat specially. *)
Definition query_safe (c : ascii) : bool :=
  not_char "+" c && not_char "&" c && not_char "#" c && not_char "?" c.

(** A small URL parser used to run the model on concrete addresses:
    the scheme up to the first ':' and, for "scheme://authority", the
    host of the authority (without user info and port). *)
Fixpoint take_until (stop : ascii -> bool) (s : string) : string * string :=
  match s with
  | EmptyString => (EmptyString, EmptyString)
  | String c rest =>
      if stop c then (EmptyString, s)
      else let (a, b) := take_until stop rest in (String c a, b)
  end.

Fixpoint after_at (s : string) : option string :=
  match s with
  | EmptyString => None
  | String c rest => if Ascii.eqb c "@" then Some rest else after_at rest
  end.

Definition host_of_authority (auth : string) : string :=
  let h := match after_at auth with Some h => h | None => auth end in
  fst (take_until (fun c => Ascii.eqb c ":") h).

Definition simple_URL_parse (s : string) : option URL :=
  let (scheme, rest) := take_until (fun c => Ascii.eqb c ":") s in
  match rest with
  | String _ body =>
      if String.eqb scheme "" then None
      else
        let host :=
          match body with
          | String "/" (String "/" auth) =>
              host_of_authority
                (fst (take_until (fun c => Ascii.eqb c "/" || Ascii.eqb c "?"
                                           || Ascii.eqb c "#") auth))
          | _ => EmptyString
          end in
        Some {| protocol := scheme ++ ":"; hostname := host |}
  | EmptyString => None
  end.

(* ================================================================== *)
(** ** Storage *)

(** One entry of the "distractingTabs" list. *)
Record TabInfo := { info_url : string; info_title : option string }.

(** The keys of [chrome.storage.sync] ([None]: key absent). *)
Record SyncStore := {
  distractingDomains : option (list string);
  distractingTabs : option (list TabInfo)
}.

(** [chrome.storage.session]: "unlocked_<domain>" keys; the code only
    ever stores [true]. *)
Abbreviation SessionStore := (gmap string bool).

Definition sessionKey (domain : string) : string := "unlocked_" ++ domain.

(** [Array.prototype.includes] on strings. *)
Definition includes (l : list string) (x : string) : bool :=
  existsb (fun y => String.eqb y x) l.

(** A JavaScript string is truthy when it is present and non-empty. *)
Definition truthy_string (s : option string) : option string :=
  match s with
  | Some u => if String.eqb u "" then None else Some u
  | None => None
  end.

(* ------------------------------------------------------------------ *)
(** *** Browser state and the async error/state monad *)

Record Tab := {
  tab_id : nat;
  windowId : nat;
  url : option string;
  title : option string
}.

Record TabGroup := {
  group_id : nat;
  group_title : string;
  group_color : string;
  group_window : nat
}.

(** The browser's tab groups: the open tabs, the open tabs whose window
    does not support tab groups (popup and app windows, where
    [chrome.tabs.group] fails), the groups, which group each tab belongs
    to, and the id the next new group receives. *)
Record BrowserState := {
  open_tabs : list nat;
  grouping_blocked : list nat;
  tab_groups : list TabGroup;
  group_of : list (nat * nat);
  next_group_id : nat
}.

Record World := { browser : BrowserState; sync : SyncStore }.

(** The group a tab belongs to ([tab.groupId]; [None]: ungrouped). *)
Definition groupOf (b : BrowserState) (tid : nat) : option nat :=
  match find (fun p => Nat.eqb (fst p) tid) (group_of b) with
  | Some (_, gid) => Some gid
  | None => None
  end.

(** Async code that may throw: a result and the world it leaves (a
    thrown error does not undo earlier effects). *)
Inductive result (A : Type) := Ok (a : A) | Throw.
Arguments Ok {A} a.
Arguments Throw {A}.

Definition M (A : Type) := World -> result A * World.

Definition ret {A} (a : A) : M A := fun w => (Ok a, w).
Definition throw {A} : M A := fun w => (Throw, w).
Definition bind {A B} (m : M A) (k : A -> M B) : M B :=
  fun w => match m w with
           | (Ok a, w') => k a w'
           | (Throw, w') => (Throw, w')
           end.

Notation "x <-- m ;; k" := (bind m (fun x => k))
  (at level 100, m at next level, right associativity).
Notation "m ;;; k" := (bind m (fun _ => k)) (at level 100, right associativity).

(** [try { m } catch (error) { console.error(...) }] *)
Definition try_catch (m : M unit) : M unit := fun w => (Ok tt, snd (m w)).

Definition modify_browser (f : BrowserState -> BrowserState) : M unit :=
  fun w => (Ok tt, {| browser := f (browser w); sync := sync w |}).
Definition modify_sync (f : SyncStore -> SyncStore) : M unit :=
  fun w => (Ok tt, {| browser := browser w; sync := f (sync w) |}).
Definition get_browser : M BrowserState := fun w => (Ok (browser w), w).
Definition get_sync : M SyncStore := fun w => (Ok (sync w), w).

(** A computation that leaves [chrome.storage.sync] as it found it. *)
Definition keeps_sync {A} (m : M A) : Prop := forall w, sync (snd (m w)) = sync w.

Section Browser.

(** The browser's URL parser ([new URL(s)]; [None]: it throws) and the
    extension's id, as [chrome.runtime.getURL] uses it. *)
Variable URL_parse : string -> option URL.
Variable extension_id : string.

Definition getURL (path : string) : string :=
  "chrome-extension://" ++ extension_id ++ "/" ++ path.

(* ------------------------------------------------------------------ *)
(** *** Lock Gate: [chrome.tabs.onActivated] (tabManager.js 177-209) *)

(** [isDomainDistracting]: membership in the stored list. *)
Definition isDomainDistracting (sync : SyncStore) (domain : string) : bool :=
  includes (default [] (distractingDomains sync)) domain.

(** The listener on the activated tab's [url]; the result is the address
    passed to [chrome.tabs.update], [None] when no redirect is issued
    (including when [new URL] throws inside the async callback). *)
Definition onActivated (sync : SyncStore) (session : SessionStore)
  (tab_url : option string) : option string :=
  match truthy_string tab_url with
  | None => None
  | Some u =>
      match URL_parse u with
      | None => None
      | Some url =>
          let domain := hostname url in
          if String.eqb (protocol url) "chrome-extension:" then None
          else if negb (isDomainDistracting sync domain) then None
          else match session !! sessionKey domain with
               | Some true => None
               | _ => Some (getURL "html/locked.html" ++ "?url=" ++ encodeURIComponent u)
               end
      end
  end.

(** The [targetUrl] the lock page reads from its own address. *)
Definition lockPage_targetUrl (href : string) : option string :=
  searchParams_get (URLSearchParams (location_search href)) "url".

(* ------------------------------------------------------------------ *)
(** *** Unlock Flow: the lock page's click handler (part_000 9-26) *)

Record LockPageState := {
  pinInput_value : string;
  errorMessage_text : string;
  session : SessionStore;
  (** the address assigned to [window.location.href], if any *)
  navigated_to : option string
}.

Definition incorrect_pin_message : string := "Incorrect PIN. Please try again.".

(** [unlockPin] is the stored PIN ([None]: absent, i.e. [undefined]);
    [targetUrl] is [urlParams.get('url')] ([None]: [null]). *)
Definition unlockBtn_click (unlockPin : option string) (targetUrl : option string)
  (st : LockPageState) : LockPageState :=
  let pin_matches :=
    match unlockPin with
    | Some p => String.eqb (pinInput_value st) p
    | None => false
    end in
  if pin_matches then
    let target := default "null" targetUrl in
    match URL_parse target with
    | None => st
    | Some url =>
        {| pinInput_value := pinInput_value st;
           errorMessage_text := errorMessage_text st;
           session := <[sessionKey (hostname url) := true]> (session st);
           navigated_to := Some target |}
    end
  else
    {| pinInput_value := "";
       errorMessage_text := incorrect_pin_message;
       session := session st;
       navigated_to := navigated_to st |}.

(** A sequence of attempts: each types a PIN, then clicks the button. *)
Definition type_pin (pin : string) (st : LockPageState) : LockPageState :=
  {| pinInput_value := pin; errorMessage_text := errorMessage_text st;
     session := session st; navigated_to := navigated_to st |}.

Fixpoint attempts (unlockPin targetUrl : option string) (pins : list string)
  (st : LockPageState) : LockPageState :=
  match pins with
  | [] => st
  | p :: ps => attempts unlockPin targetUrl ps (unlockBtn_click unlockPin targetUrl (type_pin p st))
  end.

(* ------------------------------------------------------------------ *)
(** *** Tab Grouping Service and Registry (tabManager.js 43-160) *)

(** Moving tab [tid] into group [gid]; the browser closes the group the
    tab leaves when no other tab remains in it. *)
Definition set_group_of (tid gid : nat) (b : BrowserState) : BrowserState :=
  let rest := List.filter (fun p => negb (Nat.eqb (fst p) tid)) (group_of b) in
  {| open_tabs := open_tabs b; grouping_blocked := grouping_blocked b;
     tab_groups :=
       match groupOf b tid with
       | Some old =>
           if Nat.eqb old gid || existsb (fun p => Nat.eqb (snd p) old) rest
           then tab_groups b
           else List.filter (fun g => negb (Nat.eqb (group_id g) old)) (tab_groups b)
       | None => tab_groups b
       end;
     group_of := (tid, gid) :: rest;
     next_group_id := next_group_id b |}.

Definition group_exists (b : BrowserState) (gid : nat) : bool :=
  existsb (fun g => Nat.eqb (group_id g) gid) (tab_groups b).

(** Whether [chrome.tabs.group] accepts tab [tid]: it is open, in a
    window that supports tab groups. *)
Definition groupable (b : BrowserState) (tid : nat) : bool :=
  existsb (Nat.eqb tid) (open_tabs b) && negb (existsb (Nat.eqb tid) (grouping_blocked b)).

(** Grouping calls change neither which tabs are open nor which of
    them can be grouped. *)
Definition same_tabs (b b' : BrowserState) : Prop :=
  open_tabs b' = open_tabs b /\ grouping_blocked b' = grouping_blocked b.

(** [chrome.tabGroups.query({title, windowId})] *)
Definition tabGroups_query (t : string) (win : nat) : M (list TabGroup) :=
  b <-- get_browser ;;
  ret (List.filter (fun g => String.eqb (group_title g) t && Nat.eqb (group_window g) win)
              (tab_groups b)).

(** A new, untitled group [gid] in window [win]. *)
Definition new_group (gid win : nat) (b : BrowserState) : BrowserState :=
  {| open_tabs := open_tabs b; grouping_blocked := grouping_blocked b;
     tab_groups := (tab_groups b ++ [{| group_id := gid; group_title := "";
                                       group_color := "grey"; group_window := win |}])%list;
     group_of := group_of b; next_group_id := S gid |}.

(** [chrome.tabs.group({tabIds: [tid]})]: a new group in the tab's
    window, holding the tab; fails when the tab cannot be grouped. *)
Definition tabs_group_new (tid win : nat) : M nat :=
  b <-- get_browser ;;
  if groupable b tid then
    let gid := next_group_id b in
    modify_browser (fun b => set_group_of tid gid (new_group gid win b)) ;;;
    ret gid
  else throw.

Definition retitle_group (gid : nat) (t c : string) (b : BrowserState) : BrowserState :=
  {| open_tabs := open_tabs b; grouping_blocked := grouping_blocked b;
     tab_groups := map (fun g => if Nat.eqb (group_id g) gid
                                 then {| group_id := gid; group_title := t;
                                         group_color := c; group_window := group_window g |}
                                 else g) (tab_groups b);
     group_of := group_of b; next_group_id := next_group_id b |}.

(** [chrome.tabGroups.update(gid, {title, color})] *)
Definition tabGroups_update (gid : nat) (t c : string) : M unit :=
  b <-- get_browser ;;
  if group_exists b gid then modify_browser (retitle_group gid t c) else throw.

(** [chrome.tabs.group({tabIds: [tid], groupId: gid})] *)
Definition tabs_group_into (tid gid : nat) : M unit :=
  b <-- get_browser ;;
  if groupable b tid && group_exists b gid
  then modify_browser (set_group_of tid gid)
  else throw.

(** [urlString.startsWith('http')] behind [!urlString || ...] *)
Definition http_url (s : option string) : option string :=
  match truthy_string s with
  | Some u => if String.prefix "http" u then Some u else None
  | None => None
  end.

(** [domains.push(domain); domains.sort()]: the default sort compares
    UTF-16 code units, i.e. [String.le] on ASCII host names. *)
Definition push_sorted (domains : list string) (domain : string) : list string :=
  merge_sort String.le (domains ++ [domain])%list.

Definition saveDomainAsDistracting (urlString : option string) : M unit :=
  match http_url urlString with
  | None => ret tt
  | Some u =>
      match URL_parse u with
      | None => throw
      | Some url =>
          let domain := hostname url in
          s <-- get_sync ;;
          let domains := default [] (distractingDomains s) in
          if includes domains domain then ret tt
          else modify_sync (fun s =>
                 {| distractingDomains := Some (push_sorted domains domain);
                    distractingTabs := distractingTabs s |})
      end
  end.

Definition saveTabAsDistracting (tab : Tab) : M unit :=
  match http_url (url tab) with
  | None => ret tt
  | Some u =>
      let newTabInfo := {| info_url := u; info_title := title tab |} in
      s <-- get_sync ;;
      let tabs := default [] (distractingTabs s) in
      if existsb (fun t => String.eqb (info_url t) u) tabs then ret tt
      else modify_sync (fun s =>
             {| distractingDomains := distractingDomains s;
                distractingTabs := Some (tabs ++ [newTabInfo])%list |})
  end.

Definition DISTRACTING_TITLE := "Distracting".
Definition DISTRACTING_COLOR := "red".
Definition PRODUCTIVE_TITLE := "Productive".
Definition PRODUCTIVE_COLOR := "green".

Definition groupTab (tab : Tab) (isProductive : bool) : M unit :=
  let groupTitle := if isProductive then PRODUCTIVE_TITLE else DISTRACTING_TITLE in
  let groupColor := if isProductive then PRODUCTIVE_COLOR else DISTRACTING_COLOR in
  try_catch (
    existingGroups <-- tabGroups_query groupTitle (windowId tab) ;;
    groupId <-- match existingGroups with
               | g :: _ => ret (group_id g)
               | [] => newGroupId <-- tabs_group_new (tab_id tab) (windowId tab) ;;
                       tabGroups_update newGroupId groupTitle groupColor ;;;
                       ret newGroupId
               end ;;
    tabs_group_into (tab_id tab) groupId ;;;
    if negb isProductive
    then saveDomainAsDistracting (url tab) ;;; saveTabAsDistracting tab
    else ret tt).

(** [deleteDomainFromDistracting(domain)]: the filtered list is written
    back even when nothing was removed (and [[]] when the key was absent). *)
Definition deleteDomainFromDistracting (domain : string) : M unit :=
  s <-- get_sync ;;
  let domains := default [] (distractingDomains s) in
  let updatedDomains := List.filter (fun d => negb (String.eqb d domain)) domains in
  modify_sync (fun s => {| distractingDomains := Some updatedDomains;
                           distractingTabs := distractingTabs s |}).

(** [deleteTabFromDistracting(tab)]: every entry with the tab's url goes
    ([tab.url] undefined matches no stored entry). *)
Definition deleteTabFromDistracting (tab : Tab) : M unit :=
  s <-- get_sync ;;
  let tabs := default [] (distractingTabs s) in
  let updatedTabs :=
    List.filter (fun t => match url tab with
                          | Some u => negb (String.eqb (info_url t) u)
                          | None => true
                          end) tabs in
  modify_sync (fun s => {| distractingDomains := distractingDomains s;
                           distractingTabs := Some updatedTabs |}).

(** [chrome.tabs.get(tab.id)]: fails when the tab has been closed. *)
Definition tabs_get (tid : nat) : M unit :=
  b <-- get_browser ;;
  if existsb (Nat.eqb tid) (open_tabs b) then ret tt else throw.

(** [chrome.contextMenus.onClicked] listener. *)
Definition contextMenus_onClicked (menuItemId : string) (tab : Tab) : M unit :=
  try_catch (
    tabs_get (tab_id tab) ;;;
    if String.eqb menuItemId "markProductive" then groupTab tab true
    else if String.eqb menuItemId "markDistracting" then groupTab tab false
    else ret tt).

End Browser.

Definition find_group (b : BrowserState) (gid : nat) : option TabGroup :=
  find (fun g => Nat.eqb (group_id g) gid) (tab_groups b).

(** The groups of window [win] titled [t]. *)
Definition groups_titled (b : BrowserState) (t : string) (win : nat) : list TabGroup :=
  List.filter (fun g => String.eqb (group_title g) t && Nat.eqb (group_window g) win)
              (tab_groups b).

(* ================================================================== *)
(** ** Task List Manager (task.js) *)

Module Tasks.

#[local] Set Warnings "-register-all".

(** Values as [chrome.storage.local] keeps them (JSON data). *)
Inductive json :=
| JNull
| JBool (b : bool)
| JNum (z : Z)
| JStr (s : string)
| JArr (l : list json)
| JObj (fields : list (string * json)).

(** Instances of the two classes.  A field holds a value; [text] may be
    [undefined] ([None]) when it was absent from storage, while the
    constructors' default parameters keep [subtasks] and [deadline]
    defined. *)
Inductive TaskObj :=
| Task (text : option json) (subtasks : json)
| TimedTask (text : option json) (subtasks : json) (deadline : json).

(** [new Task(text, subtasks = [])] *)
Definition new_Task (text subtasks : option json) : TaskObj :=
  Task text (default (JArr []) subtasks).

(** [new TimedTask(text, subtasks = [], deadline = "")] *)
Definition new_TimedTask (text subtasks deadline : option json) : TaskObj :=
  TimedTask text (default (JArr []) subtasks) (default (JStr "") deadline).

(** An [undefined] property is dropped by serialisation. *)
Definition opt_field (k : string) (v : option json) : list (string * json) :=
  match v with Some j => [(k, j)] | None => [] end.

(** Serialisation of an instance: its own properties in creation order. *)
Definition task_to_json (t : TaskObj) : json :=
  match t with
  | Task text subtasks => JObj (opt_field "text" text ++ [("subtasks", subtasks)])%list
  | TimedTask text subtasks deadline =>
      JObj (opt_field "text" text ++ [("subtasks", subtasks); ("deadline", deadline)])%list
  end.

(** [SaveTasks]: [chrome.storage.local.set({tasks: taskData})] *)
Definition SaveTasks (taskData : list TaskObj) : json := JArr (map task_to_json taskData).

(** Property read [t.k] ([None]: [undefined]). *)
Definition prop (t : json) (k : string) : option json :=
  match t with
  | JObj fields => match find (fun p => String.eqb (fst p) k) fields with
                   | Some (_, v) => Some v
                   | None => None
                   end
  | _ => None
  end.

(** The [.map] callback of [init]: [None] when [t] is [null];
    [t.deadline !== undefined] selects the class. *)
Definition restore_task (t : json) : option TaskObj :=
  match t with
  | JNull => None
  | _ => match prop t "deadline" with
         | Some _ => Some (new_TimedTask (prop t "text") (prop t "subtasks") (prop t "deadline"))
         | None => Some (new_Task (prop t "text") (prop t "subtasks"))
         end
  end.

Fixpoint map_opt {A B} (f : A -> option B) (l : list A) : option (list B) :=
  match l with
  | [] => Some []
  | x :: xs => match f x, map_opt f xs with
               | Some y, Some ys => Some (y :: ys)
               | _, _ => None
               end
  end.

(** [taskData = (result.tasks || []).map(...)]; [None]: the callback
    throws (a value without [.map], or a [null] entry). *)
Definition restore_tasks (stored : option json) : option (list TaskObj) :=
  match stored with
  | None | Some JNull | Some (JBool false) | Some (JStr "") => Some []
  | Some (JNum z) => if Z.eqb z 0 then Some [] else None
  | Some (JArr l) => map_opt restore_task l
  | Some _ => None
  end.

(** The task page: the in-memory [taskData] and the stored "tasks" key. *)
Record TaskPage := { taskData : list TaskObj; stored_tasks : option json }.

(** [Array.prototype.splice(start, deleteCount)] for a start index. *)
Definition splice (start deleteCount : nat) {A} (l : list A) : list A :=
  (take start l ++ drop (start + deleteCount) l)%list.

(** The remove button of the task rendered at [tIndex]. *)
Definition removeBtn_click (tIndex : nat) (p : TaskPage) : TaskPage :=
  let td := splice tIndex 1 (taskData p) in
  {| taskData := td; stored_tasks := Some (SaveTasks td) |}.

(** [String.prototype.trim] on a string of Latin-1 code units: the
    white space and line terminators among them are TAB, LF, VT, FF, CR,
    SPACE and NO-BREAK SPACE. *)
Definition is_js_space (c : ascii) : bool :=
  match nat_of_ascii c with
  | 9 | 10 | 11 | 12 | 13 | 32 | 160 => true
  | _ => false
  end.

Fixpoint trim_start (s : string) : string :=
  match s with
  | EmptyString => EmptyString
  | String c rest => if is_js_space c then trim_start rest else s
  end.

Fixpoint trim_end (s : string) : string :=
  match s with
  | EmptyString => EmptyString
  | String c rest =>
      let rest' := trim_end rest in
      if String.eqb rest' "" && is_js_space c then EmptyString else String c rest'
  end.

Definition trim (s : string) : string := trim_end (trim_start s).

(** The "add task" button: the page and the new value of the input. *)
Definition addBtn_click (inputValue : string) (p : TaskPage) : TaskPage * string :=
  let taskText := trim inputValue in
  if String.eqb taskText "" then (p, inputValue)
  else let td := (taskData p ++ [new_Task (Some (JStr taskText)) None])%list in
       ({| taskData := td; stored_tasks := Some (SaveTasks td) |}, "").

(** The "add timed task" button. *)
Definition addTimedBtn_click (inputValue : string) (p : TaskPage) : TaskPage * string :=
  let taskText := trim inputValue in
  if String.eqb taskText "" then (p, inputValue)
  else let td := (taskData p ++ [new_TimedTask (Some (JStr taskText)) None None])%list in
       ({| taskData := td; stored_tasks := Some (SaveTasks td) |}, "").

Definition set_text (v : string) (t : TaskObj) : TaskObj :=
  match t with
  | Task _ subs => Task (Some (JStr v)) subs
  | TimedTask _ subs dl => TimedTask (Some (JStr v)) subs dl
  end.

(** Typing in the text input of the task rendered at [tIndex]. *)
Definition taskText_input (tIndex : nat) (value : string) (p : TaskPage) : TaskPage :=
  let td := alter (set_text value) tIndex (taskData p) in
  {| taskData := td; stored_tasks := Some (SaveTasks td) |}.

(** Typing in the date input, which only a [TimedTask] renders. *)
Definition deadline_input (tIndex : nat) (value : string) (p : TaskPage) : TaskPage :=
  match taskData p !! tIndex with
  | Some (TimedTask text subs _) =>
      let td := <[tIndex := TimedTask text subs (JStr value)]> (taskData p) in
      {| taskData := td; stored_tasks := Some (SaveTasks td) |}
  | _ => p
  end.

Definition task_subtasks (t : TaskObj) : json :=
  match t with Task _ subs => subs | TimedTask _ subs _ => subs end.

Definition set_subtasks (subs : json) (t : TaskObj) : TaskObj :=
  match t with
  | Task text _ => Task text subs
  | TimedTask text _ dl => TimedTask text subs dl
  end.

(** Array methods on a stored value; [None]: the call throws (the value
    is not an array). *)
Definition json_push (arr v : json) : option json :=
  match arr with JArr l => Some (JArr (l ++ [v])%list) | _ => None end.

Definition json_splice1 (arr : json) (i : nat) : option json :=
  match arr with JArr l => Some (JArr (splice i 1 l)) | _ => None end.

(** [o.k = v] on an object (in place, or appended when new); [None]:
    the assignment throws ([null], or a primitive in this strict-mode
    module).  An array, which would take the property without storing
    it, is outside the model and is treated as throwing. *)
Definition set_prop (o : json) (k : string) (v : json) : option json :=
  match o with
  | JObj fields =>
      if existsb (fun f => String.eqb (fst f) k) fields
      then Some (JObj (map (fun f => if String.eqb (fst f) k then (k, v) else f) fields))
      else Some (JObj (fields ++ [(k, v)])%list)
  | _ => None
  end.

(** Replace the subtasks of the task at [tIndex] through [f]; nothing
    happens when [f] throws. *)
Definition with_subtasks (tIndex : nat) (f : json -> option json) (p : TaskPage) : TaskPage :=
  match taskData p !! tIndex with
  | Some t =>
      match f (task_subtasks t) with
      | Some subs' =>
          let td := <[tIndex := set_subtasks subs' t]> (taskData p) in
          {| taskData := td; stored_tasks := Some (SaveTasks td) |}
      | None => p
      end
  | None => p
  end.

(** The "+" button under the task at [tIndex]. *)
Definition addSubBtn_click (tIndex : nat) (inputValue : string) (p : TaskPage) : TaskPage :=
  let txt := trim inputValue in
  if String.eqb txt "" then p
  else with_subtasks tIndex (fun subs => json_push subs (JObj [("text", JStr txt)])) p.

(** The remove mark of subtask [sIndex] of the task at [tIndex]. *)
Definition subRemove_click (tIndex sIndex : nat) (p : TaskPage) : TaskPage :=
  with_subtasks tIndex (fun subs => json_splice1 subs sIndex) p.

(** Typing in the input of subtask [sIndex] of the task at [tIndex]. *)
Definition subInput_input (tIndex sIndex : nat) (value : string) (p : TaskPage) : TaskPage :=
  with_subtasks tIndex
    (fun subs => match subs with
                 | JArr l => match l !! sIndex with
                             | Some o => match set_prop o "text" (JStr value) with
                                         | Some o' => Some (JArr (<[sIndex := o']> l))
                                         | None => None
                                         end
                             | None => None
                             end
                 | _ => None
                 end) p.

(** The in-memory list and the stored one agree: a reload (the storage
    callback of [init]) rebuilds exactly [taskData]. *)
Definition in_sync (p : TaskPage) : Prop := restore_tasks (stored_tasks p) = Some (taskData p).

End Tasks.

(** Concrete inputs on which the properties are run. *)
Module Fixtures.

Definition ext_id : string := "abcdefghijklmnopabcdefghijklmnop".
Definition registry : SyncStore :=
  {| distractingDomains := Some ["example.com"]; distractingTabs := None |}.
Definition lock_page0 : LockPageState :=
  {| pinInput_value := "1234"; errorMessage_text := ""; session := ∅; navigated_to := None |}.
Definition example_host : URL := {| protocol := "https:"; hostname := "example.com" |}.

Definition tab_file : Tab :=
  {| tab_id := 1; windowId := 1; url := Some "file://example.com/x"; title := Some "Example" |}.
Definition tab_https : Tab :=
  {| tab_id := 1; windowId := 1; url := Some "https://example.com/x"; title := Some "X" |}.
Definition world0 : World :=
  {| browser := {| open_tabs := [1; 2]; grouping_blocked := []; tab_groups := []; group_of := [];
                   next_group_id := 10 |};
     sync := {| distractingDomains := Some ["news.org"; "video.net"]; distractingTabs := None |} |}.


(** A tab that is no longer open in [world0], and one whose address
    starts with "http" but has no scheme separator. *)
Definition tab_closed : Tab :=
  {| tab_id := 3; windowId := 1; url := Some "https://example.com/z"; title := Some "Z" |}.
Definition tab_bad_http : Tab :=
  {| tab_id := 1; windowId := 1; url := Some "http//example.com"; title := None |}.

Definition task_page0 : Tasks.TaskPage :=
  let td := [Tasks.Task (Some (Tasks.JStr "read")) (Tasks.JArr [Tasks.JObj [("text", Tasks.JStr "ch. 1")]]);
             Tasks.TimedTask (Some (Tasks.JStr "essay")) (Tasks.JArr []) (Tasks.JStr "2026-10-18")] in
  {| Tasks.taskData := td; Tasks.stored_tasks := Some (Tasks.SaveTasks td) |}.

End Fixtures.

(* ================================================================== *)
(** * Properties *)

(* ------------------------------------------------------------------ *)
(** ** Countdown Timer *)

Module TimerFacts.
Import Timer.
Open Scope Z_scope.

Example start_pause_fresh :
  RemainingTime (run [(1000, START_TIMER (Num 5000)); (1000, PAUSE_TIMER)] empty_storage)
  = Some NaN.
Proof. reflexivity. Qed.

Lemma pause_remaining (now : Z) (st : TimerState) :
  RemainingTime (onMessage now PAUSE_TIMER st)
  = Some (num_sub (to_num (RemainingTime st)) (num_sub (Num now) (to_num (StartingTime st)))).
Proof. reflexivity. Qed.

(** C1 (evaluation at the failing input).  START never writes
    RemainingTime, so START(5000) immediately followed by PAUSE leaves
    whatever RemainingTime an earlier session stored (here 1200), not
    5000; on fresh storage it is NaN ([start_pause_fresh]). *)
Theorem C1_start_pause_stale_remaining :
  let st0 := {| alarm := None; StartingTime := Some (Num 0);
                RemainingTime := Some (Num 1200) |} in
  RemainingTime (run [(1000, START_TIMER (Num 5000)); (1000, PAUSE_TIMER)] st0)
  = Some (Num 1200)
  /\ RemainingTime (run [(1000, START_TIMER (Num 5000)); (1000, PAUSE_TIMER)] empty_storage)
     = Some NaN.
Proof. split; reflexivity. Qed.

(** In general the duration given to START does not reach RemainingTime:
    START then PAUSE at the same instant leaves RemainingTime at its old
    value (NaN when it was absent); CONTINUE then re-arms the alarm at
    [now + RemainingTime]. *)
Lemma start_pause_ignores_duration (now now' : Z) (duration : num) (st : TimerState) :
  let st1 := run [(now, START_TIMER duration); (now, PAUSE_TIMER)] st in
  RemainingTime st1 = Some (num_sub (to_num (RemainingTime st)) (Num 0))
  /\ alarm st1 = None
  /\ alarm (onMessage now' CONTINUE_TIMER st1)
     = Some (num_add (Num now') (num_sub (to_num (RemainingTime st)) (Num 0))).
Proof.
  simpl. unfold num_sub at 2. rewrite Z.sub_diag. repeat split.
Qed.

(** C5: under the precondition that StartingTime and RemainingTime are
    stored numbers, PAUSE clears the alarm and stores
    [remainingTime - (now - startingTime)], with no floor at zero. *)
Theorem C5_pause_subtracts_elapsed (now s r : Z) (st : TimerState)
  (Hs : StartingTime st = Some (Num s)) (Hr : RemainingTime st = Some (Num r)) :
  alarm (onMessage now PAUSE_TIMER st) = None
  /\ RemainingTime (onMessage now PAUSE_TIMER st) = Some (Num (r - (now - s)))
  /\ StartingTime (onMessage now PAUSE_TIMER st) = StartingTime st.
Proof.
  simpl. rewrite Hs, Hr. simpl. repeat split.
Qed.

Lemma C5_pause_subtracts_elapsed_witness :
  let st := {| alarm := Some (Num 100); StartingTime := Some (Num 0);
               RemainingTime := Some (Num 100) |} in
  (StartingTime st = Some (Num 0) /\ RemainingTime st = Some (Num 100))
  /\ (alarm (onMessage 500 PAUSE_TIMER st) = None
      /\ RemainingTime (onMessage 500 PAUSE_TIMER st) = Some (Num (100 - (500 - 0)))
      /\ StartingTime (onMessage 500 PAUSE_TIMER st) = StartingTime st).
Proof.
  cbv zeta. split; [split; reflexivity|].
  apply (C5_pause_subtracts_elapsed 500 0 100); reflexivity.
Defined.




End TimerFacts.

(* ------------------------------------------------------------------ *)
(** ** The lock page's query parameter *)

Module QueryFacts.

Lemma str_app_cons (x : ascii) (a b : string) : String x a ++ b = String x (a ++ b).
Proof. reflexivity. Qed.

Lemma str_app_nil (b : string) : "" ++ b = b.
Proof. reflexivity. Qed.

Lemma append_assoc_str (a b c : string) : (a ++ b) ++ c = a ++ (b ++ c).
Proof.
  induction a as [|x a IH]; [reflexivity|].
  rewrite !str_app_cons, IH. reflexivity.
Qed.

Lemma string_forall_app (p : ascii -> bool) (a b : string) :
  string_forall p (a ++ b) = string_forall p a && string_forall p b.
Proof.
  induction a as [|x a IH]; [reflexivity|].
  rewrite str_app_cons. simpl. rewrite IH. now destruct (p x), (string_forall p a).
Qed.

Lemma encode_one (c : ascii) (rest : string) :
  encodeURIComponent (String c rest) = encodeURIComponent (String c EmptyString) ++ encodeURIComponent rest.
Proof. simpl. destruct (uri_unreserved c); reflexivity. Qed.

Lemma encode_char_safe (c : ascii) :
  string_forall query_safe (encodeURIComponent (String c EmptyString)) = true.
Proof. destruct c as [[] [] [] [] [] [] [] []]; vm_compute; reflexivity. Qed.

Lemma encode_safe (u : string) : string_forall query_safe (encodeURIComponent u) = true.
Proof.
  induction u as [|c u IH]; [reflexivity|].
  rewrite encode_one, string_forall_app, encode_char_safe, IH. reflexivity.
Qed.

Lemma unreserved_not_percent (c : ascii) :
  uri_unreserved c = true -> Ascii.eqb c "%" = false.
Proof. destruct c as [[] [] [] [] [] [] [] []]; vm_compute; congruence. Qed.

Lemma decode_escape (c : ascii) (rest : string) :
  uri_unreserved c = false ->
  percent_decode (String "%" (String (hex_digit (nat_of_ascii c / 16))
                   (String (hex_digit (nat_of_ascii c mod 16)) rest)))
  = String c (percent_decode rest).
Proof.
  destruct c as [[] [] [] [] [] [] [] []]; intros H;
    first [discriminate H | reflexivity].
Qed.

(** Percent-decoding undoes [encodeURIComponent]. *)
Lemma percent_decode_encode (u : string) : percent_decode (encodeURIComponent u) = u.
Proof.
  induction u as [|c u IH]; [reflexivity|].
  simpl encodeURIComponent. destruct (uri_unreserved c) eqn:E.
  - simpl. rewrite (unreserved_not_percent c E), IH. reflexivity.
  - rewrite (decode_escape c _ E), IH. reflexivity.
Qed.

Lemma plus_to_space_id (s : string) :
  string_forall (not_char "+") s = true -> plus_to_space s = s.
Proof.
  induction s as [|c s IH]; simpl; [reflexivity|].
  unfold not_char. destruct (Ascii.eqb c "+"); simpl; [discriminate|].
  intros H. now rewrite IH.
Qed.

Lemma split_on_absent (sep : ascii) (s : string) :
  string_forall (not_char sep) s = true -> split_on sep s = [s].
Proof.
  induction s as [|c s IH]; simpl; [reflexivity|].
  unfold not_char. destruct (Ascii.eqb c sep); simpl; [discriminate|].
  intros H. now rewrite IH.
Qed.

Lemma upto_hash_id (s : string) :
  string_forall (not_char "#") s = true -> upto_hash s = s.
Proof.
  induction s as [|c s IH]; simpl; [reflexivity|].
  unfold not_char. destruct (Ascii.eqb c "#"); simpl; [discriminate|].
  intros H. now rewrite IH.
Qed.

Lemma after_question_app (a b : string) :
  string_forall (not_char "?") a = true -> after_question (a ++ String "?" b) = Some b.
Proof.
  induction a as [|c a IH]; [reflexivity|]. rewrite str_app_cons. simpl.
  unfold not_char. destruct (Ascii.eqb c "?"); simpl; [discriminate|].
  exact IH.
Qed.

Lemma forall_weaken (p q : ascii -> bool) (s : string) :
  (forall c, p c = true -> q c = true) ->
  string_forall p s = true -> string_forall q s = true.
Proof.
  intros Hpq. induction s as [|c s IH]; simpl; [reflexivity|].
  intros H. apply andb_prop in H as [H1 H2]. now rewrite (Hpq c H1), (IH H2).
Qed.

(** The lock page reads back, from the address the Lock Gate redirects
    to, exactly the URL that was encoded into it. *)
Lemma lockPage_reads_back (extension_id u : string) :
  string_forall (fun c => not_char "?" c && not_char "#" c) extension_id = true ->
  lockPage_targetUrl (getURL extension_id "html/locked.html" ++ "?url=" ++ encodeURIComponent u)
  = Some u.
Proof.
  intros Hext.
  assert (Hq : string_forall (not_char "?") extension_id = true).
  { revert Hext. apply forall_weaken. intros c H. now apply andb_prop in H as [H _]. }
  assert (Hh : string_forall (not_char "#") extension_id = true).
  { revert Hext. apply forall_weaken. intros c H. now apply andb_prop in H as [_ H]. }
  pose proof (encode_safe u) as Hs.
  set (e := encodeURIComponent u) in *.
  assert (Hs_plus : string_forall (not_char "+") e = true).
  { revert Hs. apply forall_weaken. unfold query_safe. intros c H.
    now repeat apply andb_prop in H as [H ?]. }
  assert (Hs_amp : string_forall (not_char "&") e = true).
  { revert Hs. apply forall_weaken. unfold query_safe. intros c H.
    now repeat apply andb_prop in H as [H ?]. }
  assert (Hs_hash : string_forall (not_char "#") e = true).
  { revert Hs. apply forall_weaken. unfold query_safe. intros c H.
    now repeat apply andb_prop in H as [H ?]. }
  unfold lockPage_targetUrl, location_search, getURL.
  rewrite upto_hash_id.
  2:{ rewrite !string_forall_app, Hh, Hs_hash. reflexivity. }
  replace (("chrome-extension://" ++ extension_id ++ "/" ++ "html/locked.html") ++ "?url=" ++ e)
    with (("chrome-extension://" ++ extension_id ++ "/html/locked.html") ++ String "?" ("url=" ++ e))
    by (rewrite !append_assoc_str; reflexivity).
  rewrite after_question_app.
  2:{ rewrite !string_forall_app, Hq. reflexivity. }
  cbv iota. simpl String.eqb. cbv iota.
  unfold URLSearchParams. simpl strip_question.
  rewrite split_on_absent.
  2:{ rewrite !str_app_cons. simpl string_forall. exact Hs_amp. }
  simpl. unfold form_decode. rewrite str_app_nil, (plus_to_space_id e Hs_plus).
  subst e. rewrite percent_decode_encode. reflexivity.
Qed.

End QueryFacts.

(* ------------------------------------------------------------------ *)
(** ** Lock Gate and Unlock Flow *)

Module LockGateFacts.
Import QueryFacts.

Section Gate.
Variable URL_parse : string -> option URL.
Variable extension_id : string.

Lemma onActivated_parsed (sync : SyncStore) (sess : SessionStore) (u : string) (U : URL) :
  u <> "" -> URL_parse u = Some U ->
  onActivated URL_parse extension_id sync sess (Some u)
  = if String.eqb (protocol U) "chrome-extension:" then None
    else if negb (isDomainDistracting sync (hostname U)) then None
    else match sess !! sessionKey (hostname U) with
         | Some true => None
         | _ => Some (getURL extension_id "html/locked.html" ++ "?url=" ++ encodeURIComponent u)
         end.
Proof.
  intros Hne HU. unfold onActivated, truthy_string.
  apply String.eqb_neq in Hne. rewrite Hne, HU. reflexivity.
Qed.

Lemma onActivated_unparsed (sync : SyncStore) (sess : SessionStore) (u : string) :
  URL_parse u = None -> onActivated URL_parse extension_id sync sess (Some u) = None.
Proof.
  intros HU. unfold onActivated, truthy_string.
  destruct (String.eqb u ""); [reflexivity|]. now rewrite HU.
Qed.

(** C3: a tab at a URL [u] whose host name is in the DistractingDomain
    list, with no unlock recorded for it this session (and outside the
    extension's own scheme, which step 1 of the gate exempts), is
    redirected to the lock page with [u] as its "url" parameter, which
    the lock page reads back as [u]; once the PIN matched for a target
    on that host, no URL on the host is redirected in that session; a
    host outside the list is never redirected. *)
Theorem C3_lock_gate_redirect_and_unlock
  (Hext : string_forall (fun c => not_char "?" c && not_char "#" c) extension_id = true) :
  (forall (sync : SyncStore) (sess : SessionStore) (u : string) (U : URL),
     u <> "" -> URL_parse u = Some U ->
     protocol U <> "chrome-extension:" ->
     isDomainDistracting sync (hostname U) = true ->
     sess !! sessionKey (hostname U) <> Some true ->
     exists redirect,
       onActivated URL_parse extension_id sync sess (Some u) = Some redirect
       /\ redirect = getURL extension_id "html/locked.html" ++ "?url=" ++ encodeURIComponent u
       /\ lockPage_targetUrl redirect = Some u)
  /\ (forall (sync : SyncStore) (st : LockPageState) (pin target : string) (T : URL),
        URL_parse target = Some T ->
        pinInput_value st = pin ->
        let st' := unlockBtn_click URL_parse (Some pin) (Some target) st in
        forall (u' : string) (U' : URL),
          URL_parse u' = Some U' -> hostname U' = hostname T ->
          onActivated URL_parse extension_id sync (session st') (Some u') = None)
  /\ (forall (sync : SyncStore) (sess : SessionStore) (u : string) (U : URL),
        URL_parse u = Some U ->
        isDomainDistracting sync (hostname U) = false ->
        onActivated URL_parse extension_id sync sess (Some u) = None).
Proof.
  split; [|split].
  - intros sync sess u U Hne HU Hprot Hdis Hsess.
    rewrite (onActivated_parsed sync sess u U Hne HU).
    apply String.eqb_neq in Hprot. rewrite Hprot, Hdis. simpl.
    eexists. split.
    + destruct (sess !! sessionKey (hostname U)) as [[]|]; [congruence | reflexivity | reflexivity].
    + split; [reflexivity|]. now apply lockPage_reads_back.
  - intros sync st pin target T HT Hpin st' u' U' HU' Hhost.
    subst st'. unfold unlockBtn_click. rewrite Hpin, String.eqb_refl. simpl default.
    rewrite HT. simpl session.
    destruct (String.eqb u' "") eqn:E.
    + apply String.eqb_eq in E. subst u'. reflexivity.
    + apply String.eqb_neq in E.
      rewrite (onActivated_parsed _ _ u' U' E HU'), Hhost, lookup_insert_eq.
      destruct (String.eqb (protocol U') "chrome-extension:"); [reflexivity|].
      destruct (negb (isDomainDistracting sync (hostname T))); reflexivity.
  - intros sync sess u U HU Hdis.
    destruct (String.eqb u "") eqn:E.
    + apply String.eqb_eq in E. subst u. reflexivity.
    + apply String.eqb_neq in E.
      rewrite (onActivated_parsed sync sess u U E HU), Hdis. simpl.
      destruct (String.eqb (protocol U) "chrome-extension:"); reflexivity.
Qed.

(** C8: a URL in the extension's internal scheme never triggers the
    redirect, whatever the DistractingDomain list and the session hold. *)
Theorem C8_internal_scheme_exempt (u : string) (U : URL)
  (HU : URL_parse u = Some U) (Hscheme : protocol U = "chrome-extension:") :
  forall (sync : SyncStore) (sess : SessionStore),
    onActivated URL_parse extension_id sync sess (Some u) = None.
Proof.
  intros sync sess.
  destruct (String.eqb u "") eqn:E.
  - apply String.eqb_eq in E. subst u. reflexivity.
  - apply String.eqb_neq in E.
    rewrite (onActivated_parsed sync sess u U E HU), Hscheme. reflexivity.
Qed.

(** C4: with a target URL that parses, a PIN equal (as a string) to the
    stored one records "unlocked_<host>" = true in the session and
    navigates to the target; any other PIN (or no stored PIN) only shows
    the error message and clears the input, leaving the session and the
    location as they were; earlier failed attempts do not prevent a
    later matching one from unlocking. *)
Theorem C4_unlock_flow (unlockPin : option string) (target : string) (T : URL)
  (st : LockPageState) (HT : URL_parse target = Some T) :
  (unlockPin = Some (pinInput_value st) ->
     session (unlockBtn_click URL_parse unlockPin (Some target) st)
     = <[sessionKey (hostname T) := true]> (session st)
     /\ navigated_to (unlockBtn_click URL_parse unlockPin (Some target) st) = Some target)
  /\ (unlockPin <> Some (pinInput_value st) ->
     unlockBtn_click URL_parse unlockPin (Some target) st
     = {| pinInput_value := ""; errorMessage_text := incorrect_pin_message;
          session := session st; navigated_to := navigated_to st |})
  /\ (forall (failed : list string) (pin : string),
        unlockPin = Some pin ->
        Forall (fun q => q <> pin) failed ->
        let st' := attempts URL_parse unlockPin (Some target) (failed ++ [pin]) st in
        session st' = <[sessionKey (hostname T) := true]> (session st)
        /\ navigated_to st' = Some target).
Proof.
  assert (Hmatch : forall st0 pin, unlockPin = Some pin -> pinInput_value st0 = pin ->
     session (unlockBtn_click URL_parse unlockPin (Some target) st0)
     = <[sessionKey (hostname T) := true]> (session st0)
     /\ navigated_to (unlockBtn_click URL_parse unlockPin (Some target) st0) = Some target).
  { intros st0 pin -> Hp. unfold unlockBtn_click. rewrite Hp, String.eqb_refl.
    simpl default. rewrite HT. split; reflexivity. }
  assert (Hmiss : forall st0, unlockPin <> Some (pinInput_value st0) ->
     unlockBtn_click URL_parse unlockPin (Some target) st0
     = {| pinInput_value := ""; errorMessage_text := incorrect_pin_message;
          session := session st0; navigated_to := navigated_to st0 |}).
  { intros st0 Hne. unfold unlockBtn_click.
    destruct unlockPin as [p|]; [|reflexivity].
    destruct (String.eqb (pinInput_value st0) p) eqn:E; [|reflexivity].
    apply String.eqb_eq in E. subst p. congruence. }
  split; [|split].
  - intros Hp. exact (Hmatch st _ Hp eq_refl).
  - exact (Hmiss st).
  - intros failed pin Hpin Hfailed. simpl.
    revert st. induction Hfailed as [|q qs Hq _ IH]; intros st.
    + exact (Hmatch (type_pin pin st) pin Hpin eq_refl).
    + simpl. rewrite (Hmiss (type_pin q st)) by (simpl; congruence).
      exact (IH {| pinInput_value := ""; errorMessage_text := incorrect_pin_message;
                   session := session st; navigated_to := navigated_to st |}).
Qed.

End Gate.
End LockGateFacts.

Module LockGateWitnesses.
Import QueryFacts LockGateFacts Fixtures.

Lemma C3_lock_gate_redirect_and_unlock_witness :
  string_forall (fun c => not_char "?" c && not_char "#" c) ext_id = true
  /\ (exists r, onActivated simple_URL_parse ext_id registry ∅ (Some "https://example.com/x") = Some r
                /\ lockPage_targetUrl r = Some "https://example.com/x")
  /\ onActivated simple_URL_parse ext_id registry
       (session (unlockBtn_click simple_URL_parse (Some "1234") (Some "https://example.com/x") lock_page0))
       (Some "https://example.com/other") = None.
Proof.
  assert (Hext : string_forall (fun c => not_char "?" c && not_char "#" c) ext_id = true)
    by reflexivity.
  destruct (C3_lock_gate_redirect_and_unlock simple_URL_parse ext_id Hext) as [HA [HB _]].
  split; [exact Hext | split].
  - destruct (HA registry ∅ "https://example.com/x" example_host
                 ltac:(discriminate) eq_refl ltac:(discriminate) eq_refl
                 ltac:(rewrite lookup_empty; discriminate)) as (r & Hr & _ & Hback).
    exists r. split; assumption.
  - exact (HB registry lock_page0 "1234" "https://example.com/x" example_host eq_refl eq_refl
              "https://example.com/other" example_host eq_refl eq_refl).
Defined.

Lemma C8_internal_scheme_exempt_witness :
  simple_URL_parse "chrome-extension://abcd/html/locked.html"
    = Some {| protocol := "chrome-extension:"; hostname := "abcd" |}
  /\ onActivated simple_URL_parse ext_id
       {| distractingDomains := Some ["abcd"; "example.com"]; distractingTabs := None |} ∅
       (Some "chrome-extension://abcd/html/locked.html") = None.
Proof.
  split; [reflexivity|].
  exact (C8_internal_scheme_exempt simple_URL_parse ext_id
           "chrome-extension://abcd/html/locked.html"
           {| protocol := "chrome-extension:"; hostname := "abcd" |} eq_refl eq_refl _ ∅).
Defined.

Lemma C4_unlock_flow_witness :
  simple_URL_parse "https://example.com/x" = Some example_host
  /\ session (unlockBtn_click simple_URL_parse (Some "1234") (Some "https://example.com/x") lock_page0)
     = <["unlocked_example.com" := true]> ∅
  /\ unlockBtn_click simple_URL_parse (Some "1234 ") (Some "https://example.com/x") lock_page0
     = {| pinInput_value := ""; errorMessage_text := incorrect_pin_message;
          session := ∅; navigated_to := None |}.
Proof.
  split; [reflexivity|].
  destruct (C4_unlock_flow simple_URL_parse (Some "1234") "https://example.com/x" example_host
              lock_page0 eq_refl) as [H1 _].
  destruct (C4_unlock_flow simple_URL_parse (Some "1234 ") "https://example.com/x" example_host
              lock_page0 eq_refl) as [_ [H2 _]].
  split.
  - exact (proj1 (H1 eq_refl)).
  - apply H2. discriminate.
Defined.

End LockGateWitnesses.

(* ------------------------------------------------------------------ *)
(** ** Tab Grouping Service and Registry *)

Module GroupingFacts.

Section Grouping.
Variable URL_parse : string -> option URL.

Lemma keeps_ret {A} (a : A) : keeps_sync (ret a).
Proof. intros w. reflexivity. Qed.

Lemma keeps_throw {A} : keeps_sync (@throw A).
Proof. intros w. reflexivity. Qed.

Lemma keeps_bind {A B} (m : M A) (k : A -> M B) :
  keeps_sync m -> (forall a, keeps_sync (k a)) -> keeps_sync (bind m k).
Proof.
  intros Hm Hk w. unfold bind. specialize (Hm w).
  destruct (m w) as [[a|] w']; simpl in *; [now rewrite Hk | exact Hm].
Qed.

Lemma keeps_modify_browser f : keeps_sync (modify_browser f).
Proof. intros w. reflexivity. Qed.

Lemma keeps_get_browser : keeps_sync get_browser.
Proof. intros w. reflexivity. Qed.

Lemma keeps_get_sync : keeps_sync get_sync.
Proof. intros w. reflexivity. Qed.

Create HintDb keeps.
#[local] Hint Resolve keeps_ret keeps_throw keeps_bind keeps_modify_browser
  keeps_get_browser keeps_get_sync : keeps.

Ltac keeps_tac :=
  repeat first [ progress (eauto with keeps)
               | apply keeps_bind; [|intros ?]
               | match goal with |- keeps_sync (if ?b then _ else _) => destruct b end
               | match goal with |- keeps_sync (match ?x with _ => _ end) => destruct x end ].

Lemma keeps_query t win : keeps_sync (tabGroups_query t win).
Proof. unfold tabGroups_query. keeps_tac. Qed.

Lemma keeps_group_new tid win : keeps_sync (tabs_group_new tid win).
Proof. unfold tabs_group_new. keeps_tac. Qed.

Lemma keeps_update gid t c : keeps_sync (tabGroups_update gid t c).
Proof. unfold tabGroups_update. keeps_tac. Qed.

Lemma keeps_group_into tid gid : keeps_sync (tabs_group_into tid gid).
Proof. unfold tabs_group_into. keeps_tac. Qed.

#[local] Hint Resolve keeps_query keeps_group_new keeps_update keeps_group_into : keeps.

Lemma keeps_apply {A} (m : M A) : keeps_sync m -> forall w, sync (snd (m w)) = sync w.
Proof. exact id. Qed.

Lemma sync_try_catch (m : M unit) w : sync (snd (try_catch m w)) = sync (snd (m w)).
Proof. reflexivity. Qed.

Lemma http_url_none (tab : Tab) :
  url tab = None \/ (exists u, url tab = Some u /\ String.prefix "http" u = false) ->
  http_url (url tab) = None.
Proof.
  intros [-> | (u & -> & Hp)]; [reflexivity|].
  unfold http_url, truthy_string. destruct (String.eqb u ""); [reflexivity|].
  now rewrite Hp.
Qed.

(** C10: a tab with no URL, or one not starting with "http": both save
    functions return at once, and [groupTab(tab, false)] leaves the
    distractingDomains and distractingTabs keys as they were, whatever
    the browser does with the tab's group. *)
Theorem C10_non_http_leaves_registry (tab : Tab)
  (Hurl : url tab = None \/ (exists u, url tab = Some u /\ String.prefix "http" u = false)) :
  saveDomainAsDistracting URL_parse (url tab) = ret tt
  /\ saveTabAsDistracting tab = ret tt
  /\ forall w, sync (snd (groupTab URL_parse tab false w)) = sync w.
Proof.
  pose proof (http_url_none tab Hurl) as Hn.
  assert (Hd : saveDomainAsDistracting URL_parse (url tab) = ret tt).
  { unfold saveDomainAsDistracting. now rewrite Hn. }
  assert (Ht : saveTabAsDistracting tab = ret tt).
  { unfold saveTabAsDistracting. now rewrite Hn. }
  split; [exact Hd | split; [exact Ht|]].
  intros w. unfold groupTab. rewrite sync_try_catch.
  simpl negb. cbv iota. rewrite Hd, Ht.
  apply keeps_apply. keeps_tac.
Qed.

Lemma bind_ok {A B} (m : M A) (k : A -> M B) (w : World) (a : A) (w' : World) :
  m w = (Ok a, w') -> bind m k w = k a w'.
Proof. intros H. unfold bind. now rewrite H. Qed.

Lemma query_ok t win w :
  tabGroups_query t win w
  = (Ok (List.filter (fun g => String.eqb (group_title g) t && Nat.eqb (group_window g) win)
                (tab_groups (browser w))), w).
Proof. reflexivity. Qed.



Lemma set_group_of_exists tid gid b :
  group_exists b gid = true -> group_exists (set_group_of tid gid b) gid = true.
Proof.
  intros Hg. unfold set_group_of, group_exists in *. simpl.
  destruct (groupOf b tid) as [old|]; [|exact Hg].
  destruct (Nat.eqb old gid || _) eqn:E; [exact Hg|].
  apply orb_false_iff in E as [E _].
  apply existsb_exists in Hg as (g & Hin & Hid).
  apply existsb_exists. exists g. split; [|exact Hid].
  apply filter_In. split; [exact Hin|].
  apply Nat.eqb_eq in Hid. rewrite Hid, Nat.eqb_sym, E. reflexivity.
Qed.


Lemma existsb_ids_update (gid : nat) (t c : string) (l : list TabGroup) (x : nat) :
  existsb (fun g => Nat.eqb (group_id g) x)
    (map (fun g => if Nat.eqb (group_id g) gid
                   then {| group_id := gid; group_title := t; group_color := c;
                           group_window := group_window g |}
                   else g) l)
  = existsb (fun g => Nat.eqb (group_id g) x) l.
Proof.
  induction l as [|g l IH]; simpl; [reflexivity|].
  rewrite IH. destruct (Nat.eqb (group_id g) gid) eqn:E; [|reflexivity].
  apply Nat.eqb_eq in E. simpl. now rewrite E.
Qed.

Lemma update_ok gid t c w :
  group_exists (browser w) gid = true ->
  tabGroups_update gid t c w
  = (Ok tt, {| browser := retitle_group gid t c (browser w); sync := sync w |})
  /\ same_tabs (browser w) (retitle_group gid t c (browser w))
  /\ group_exists (retitle_group gid t c (browser w)) gid = true.
Proof.
  intros Hg. unfold tabGroups_update, bind, get_browser. simpl. rewrite Hg.
  split; [reflexivity|]. split; [split; reflexivity|].
  unfold group_exists in *. simpl. now rewrite existsb_ids_update.
Qed.

Lemma into_ok tid gid w :
  groupable (browser w) tid = true ->
  group_exists (browser w) gid = true ->
  tabs_group_into tid gid w
  = (Ok tt, {| browser := set_group_of tid gid (browser w); sync := sync w |}).
Proof.
  intros Ho Hg. unfold tabs_group_into, bind, get_browser. simpl. now rewrite Ho, Hg.
Qed.

Lemma filter_head_exists (p : TabGroup -> bool) (l : list TabGroup) g gs :
  List.filter p l = g :: gs -> existsb (fun g' => Nat.eqb (group_id g') (group_id g)) l = true.
Proof.
  induction l as [|h l IH]; simpl; [discriminate|].
  destruct (p h); [intros [= -> _]; now rewrite Nat.eqb_refl|].
  intros H. rewrite (IH H). apply orb_true_r.
Qed.


Lemma includes_In (l : list string) (x : string) : includes l x = true <-> In x l.
Proof.
  unfold includes. rewrite existsb_exists. split.
  - intros (y & Hy & E). apply String.eqb_eq in E. now subst.
  - intros H. exists x. split; [exact H | apply String.eqb_refl].
Qed.

Lemma http_url_some (u : string) :
  String.prefix "http" u = true -> http_url (Some u) = Some u.
Proof.
  intros Hp. unfold http_url, truthy_string.
  destruct (String.eqb u "") eqn:E.
  - apply String.eqb_eq in E. subst u. discriminate.
  - now rewrite Hp.
Qed.

Lemma saveTab_frame (tab : Tab) (w : World) :
  browser (snd (saveTabAsDistracting tab w)) = browser w
  /\ distractingDomains (sync (snd (saveTabAsDistracting tab w))) = distractingDomains (sync w).
Proof.
  unfold saveTabAsDistracting. destruct (http_url (url tab)); [|split; reflexivity].
  unfold bind, get_sync. simpl.
  destruct (existsb _ _); split; reflexivity.
Qed.



End Grouping.
End GroupingFacts.

Module GroupingWitnesses.
Import GroupingFacts Fixtures.



Lemma C10_non_http_leaves_registry_witness :
  sync (snd (groupTab simple_URL_parse tab_file false world0)) = sync world0.
Proof.
  exact (proj2 (proj2 (C10_non_http_leaves_registry simple_URL_parse tab_file
           (or_intror (ex_intro _ "file://example.com/x" (conj eq_refl eq_refl))))) world0).
Defined.

End GroupingWitnesses.

(* ------------------------------------------------------------------ *)
(** ** Task List Manager *)

Module TaskFacts.
Import Tasks.

Lemma restore_task_to_json (t : TaskObj) : restore_task (task_to_json t) = Some t.
Proof. destruct t as [[text|] subs | [text|] subs dl]; reflexivity. Qed.

Lemma map_opt_restore (ts : list TaskObj) :
  map_opt restore_task (map task_to_json ts) = Some ts.
Proof.
  induction ts as [|t ts IH]; [reflexivity|].
  simpl. now rewrite restore_task_to_json, IH.
Qed.

(** C7: saving the task list and restoring it gives back the same list:
    an entry stored with a "deadline" property comes back as a
    [TimedTask] and one without as a [Task], with [text], [subtasks]
    and [deadline] equal to what was saved. *)
Theorem C7_save_restore_roundtrip (ts : list TaskObj) :
  restore_tasks (Some (SaveTasks ts)) = Some ts
  /\ Forall (fun t =>
       match t with
       | TimedTask _ _ dl => prop (task_to_json t) "deadline" = Some dl
       | Task _ _ => prop (task_to_json t) "deadline" = None
       end) ts.
Proof.
  split.
  - exact (map_opt_restore ts).
  - apply Forall_forall. intros [[text|] subs | [text|] subs dl] _; reflexivity.
Qed.

(** C9: removing the task at an index [i] below the length [n] takes out
    exactly the [i]-th task, keeps the others in order, and stores the
    new list of length [n - 1]. *)
Theorem C9_remove_task_at_index (p : TaskPage) (i : nat)
  (Hi : i < length (taskData p)) :
  exists x,
    taskData p !! i = Some x
    /\ taskData (removeBtn_click i p) = (take i (taskData p) ++ drop (S i) (taskData p))%list
    /\ taskData p = (take i (taskData (removeBtn_click i p))
                     ++ x :: drop i (taskData (removeBtn_click i p)))%list
    /\ length (taskData (removeBtn_click i p)) = length (taskData p) - 1
    /\ stored_tasks (removeBtn_click i p) = Some (SaveTasks (taskData (removeBtn_click i p))).
Proof.
  destruct (lookup_lt_is_Some_2 (taskData p) i Hi) as [x Hx].
  exists x. simpl. unfold splice. rewrite Nat.add_1_r.
  assert (Htake : length (take i (taskData p)) = i) by (rewrite length_take; lia).
  split; [exact Hx|]. split; [reflexivity|]. split; [|split; [|reflexivity]].
  - rewrite take_app_length' by (symmetry; exact Htake).
    rewrite drop_app_length' by (symmetry; exact Htake).
    symmetry. apply take_drop_middle. exact Hx.
  - rewrite length_app, length_take, length_drop. lia.
Qed.

End TaskFacts.

Module TaskWitnesses.
Import Tasks TaskFacts.

Lemma C9_remove_task_at_index_witness :
  let p := {| taskData := [Task (Some (JStr "a")) (JArr []);
                           TimedTask (Some (JStr "b")) (JArr []) (JStr "2026-10-18");
                           Task (Some (JStr "c")) (JArr [JObj [("text", JStr "c1")]])];
              stored_tasks := None |} in
  1 < length (taskData p)
  /\ length (taskData (removeBtn_click 1 p)) = 2.
Proof.
  cbv zeta. split; [simpl; lia|].
  destruct (C9_remove_task_at_index
              {| taskData := [Task (Some (JStr "a")) (JArr []);
                              TimedTask (Some (JStr "b")) (JArr []) (JStr "2026-10-18");
                              Task (Some (JStr "c")) (JArr [JObj [("text", JStr "c1")]])];
                 stored_tasks := None |} 1 ltac:(simpl; lia))
    as (x & _ & _ & _ & Hlen & _).
  rewrite Hlen. reflexivity.
Defined.

End TaskWitnesses.

(* ================================================================== *)
(** * Further properties of the code *)

(* ------------------------------------------------------------------ *)
(** ** Timer: pause and resume *)

Module TimerMore.
Import Timer.
Open Scope Z_scope.

(** A pause at [t1], a resume at [t2] and a pause at [t3]: the resumed
    alarm fires at the old deadline [s + r] postponed by the paused time
    [t2 - t1], and the second pause subtracts only the time run since the
    resume. *)
Theorem pause_continue_cycle (s r t1 t2 t3 : Z) (st : TimerState)
  (Hs : StartingTime st = Some (Num s)) (Hr : RemainingTime st = Some (Num r)) :
  alarm (run [(t1, PAUSE_TIMER); (t2, CONTINUE_TIMER)] st) = Some (Num ((s + r) + (t2 - t1)))
  /\ StartingTime (run [(t1, PAUSE_TIMER); (t2, CONTINUE_TIMER)] st) = Some (Num t2)
  /\ RemainingTime (run [(t1, PAUSE_TIMER); (t2, CONTINUE_TIMER); (t3, PAUSE_TIMER)] st)
     = Some (Num (r - (t1 - s) - (t3 - t2))).
Proof.
  simpl. rewrite Hs, Hr. simpl. repeat split; do 2 f_equal; lia.
Qed.

(** PAUSE does not move StartingTime, so a second PAUSE without a
    CONTINUE in between subtracts the time since the same start again. *)
Theorem double_pause_subtracts_twice (s r t1 t2 : Z) (st : TimerState)
  (Hs : StartingTime st = Some (Num s)) (Hr : RemainingTime st = Some (Num r)) :
  RemainingTime (run [(t1, PAUSE_TIMER); (t2, PAUSE_TIMER)] st)
  = Some (Num (r - (t1 - s) - (t2 - s)))
  /\ alarm (run [(t1, PAUSE_TIMER); (t2, PAUSE_TIMER)] st) = None.
Proof.
  simpl. rewrite Hs, Hr. simpl. split; reflexivity.
Qed.

Lemma no_number_step (now : Z) (m : Message) (st : TimerState) :
  no_number (RemainingTime st) -> no_number (RemainingTime (onMessage now m st)).
Proof.
  intros H. destruct m; simpl; try exact H.
  right. destruct H as [-> | ->]; reflexivity.
Qed.

(** No handler ever stores a number into RemainingTime that was not one
    already: from empty storage, whatever messages arrive, RemainingTime
    is absent or NaN, and every CONTINUE arms the alarm at NaN. *)
Theorem remaining_never_numeric (cmds : list (Z * Message)) :
  no_number (RemainingTime (run cmds empty_storage))
  /\ forall now, alarm (onMessage now CONTINUE_TIMER (run cmds empty_storage)) = Some NaN.
Proof.
  assert (Hrun : forall cmds st, no_number (RemainingTime st) ->
                   no_number (RemainingTime (run cmds st))).
  { induction cmds0 as [|[t m] rest IH]; intros st H; [exact H|].
    simpl. apply IH, no_number_step, H. }
  assert (Hn := Hrun cmds empty_storage (or_introl eq_refl)).
  split; [exact Hn|].
  intros now. simpl. destruct Hn as [-> | ->]; reflexivity.
Qed.

End TimerMore.

Module TimerMoreWitnesses.
Import Timer TimerMore.
Open Scope Z_scope.

Lemma pause_continue_cycle_witness :
  alarm (run [(3000, PAUSE_TIMER); (4000, CONTINUE_TIMER)]
           {| alarm := Some (Num 5000); StartingTime := Some (Num 0);
              RemainingTime := Some (Num 5000) |}) = Some (Num 6000).
Proof.
  exact (proj1 (pause_continue_cycle 0 5000 3000 4000 0
           {| alarm := Some (Num 5000); StartingTime := Some (Num 0);
              RemainingTime := Some (Num 5000) |} eq_refl eq_refl)).
Defined.

Lemma double_pause_subtracts_twice_witness :
  RemainingTime (run [(1000, PAUSE_TIMER); (1500, PAUSE_TIMER)]
           {| alarm := Some (Num 5000); StartingTime := Some (Num 0);
              RemainingTime := Some (Num 5000) |}) = Some (Num 2500).
Proof.
  exact (proj1 (double_pause_subtracts_twice 0 5000 1000 1500
           {| alarm := Some (Num 5000); StartingTime := Some (Num 0);
              RemainingTime := Some (Num 5000) |} eq_refl eq_refl)).
Defined.

End TimerMoreWitnesses.

(* ------------------------------------------------------------------ *)
(** ** Registry: saving and deleting *)

Module RegistryMore.
Import GroupingFacts LockGateFacts.

Lemma filter_Permutation {A} (f : A -> bool) (l1 l2 : list A) :
  Permutation l1 l2 -> Permutation (List.filter f l1) (List.filter f l2).
Proof.
  induction 1 as [|x l1 l2 _ IH|x y l|l1 l2 l3 _ IH1 _ IH2]; simpl.
  - constructor.
  - destruct (f x); [constructor|]; exact IH.
  - destruct (f x), (f y); try constructor; reflexivity.
  - etransitivity; eassumption.
Qed.

Lemma filter_StronglySorted {A} (R : relation A) (f : A -> bool) (l : list A) :
  StronglySorted R l -> StronglySorted R (List.filter f l).
Proof.
  induction 1 as [|x l _ IH HF]; simpl; [constructor|].
  destruct (f x); [|exact IH].
  constructor; [exact IH|].
  rewrite List.Forall_forall in HF |- *. intros y Hy.
  apply filter_In in Hy. apply HF, Hy.
Qed.

Lemma filter_Sorted_le (f : string -> bool) (l : list string) :
  Sorted String.le l -> Sorted String.le (List.filter f l).
Proof.
  intros H. apply StronglySorted_Sorted, filter_StronglySorted.
  apply Sorted_StronglySorted; [apply _ | exact H].
Qed.

Lemma filter_absent (d : string) (l : list string) :
  ~ In d l -> List.filter (fun x => negb (String.eqb x d)) l = l.
Proof.
  induction l as [|x l IH]; simpl; [reflexivity|].
  intros Hn. destruct (String.eqb x d) eqn:E.
  - apply String.eqb_eq in E. subst x. tauto.
  - simpl. f_equal. apply IH. tauto.
Qed.

Lemma includes_filter (d d' : string) (l : list string) :
  includes (List.filter (fun x => negb (String.eqb x d)) l) d'
  = negb (String.eqb d' d) && includes l d'.
Proof.
  induction l as [|x l IH]; simpl.
  - now destruct (String.eqb d' d).
  - destruct (String.eqb x d) eqn:E; simpl.
    + apply String.eqb_eq in E. subst x. rewrite IH.
      destruct (String.eqb d' d) eqn:E'; [reflexivity|].
      rewrite (proj2 (String.eqb_neq d d')); [reflexivity|].
      intros ->. now rewrite String.eqb_refl in E'.
    + rewrite IH. unfold includes. simpl.
      destruct (String.eqb x d') eqn:Exd; simpl.
      * apply String.eqb_eq in Exd. subst x. now rewrite E.
      * reflexivity.
Qed.

Section Registry.
Variable URL_parse : string -> option URL.
Variable extension_id : string.

(** Marking a new host distracting and then deleting it gives back the
    stored list exactly: the sorted insertion and the filter undo each
    other on a sorted list that did not hold the host. *)
Theorem delete_after_save_restores (u : string) (U : URL) (w : World)
  (Hhttp : String.prefix "http" u = true) (HU : URL_parse u = Some U)
  (Hsorted : Sorted String.le (default [] (distractingDomains (sync w))))
  (Hnew : ~ In (hostname U) (default [] (distractingDomains (sync w)))) :
  distractingDomains
    (sync (snd ((saveDomainAsDistracting URL_parse (Some u) ;;;
                 deleteDomainFromDistracting (hostname U)) w)))
  = Some (default [] (distractingDomains (sync w))).
Proof.
  set (ds := default [] (distractingDomains (sync w))) in *.
  unfold saveDomainAsDistracting. rewrite (http_url_some u Hhttp), HU.
  assert (Hinc : includes ds (hostname U) = false).
  { destruct (includes ds (hostname U)) eqn:E; [|reflexivity].
    apply includes_In in E. contradiction. }
  unfold bind, get_sync, modify_sync. simpl. fold ds. rewrite Hinc. simpl.
  f_equal. unfold push_sorted.
  assert (Hs' : Sorted String.le (List.filter (fun x => negb (String.eqb x (hostname U)))
                                   (merge_sort String.le (ds ++ [hostname U])%list))).
  { apply filter_Sorted_le, Sorted_merge_sort. apply _. }
  apply (Sorted_unique String.le _ _ Hs' Hsorted).
  rewrite (filter_Permutation _ _ _ (merge_sort_Permutation String.le (ds ++ [hostname U])%list)).
    rewrite List.filter_app. simpl. rewrite String.eqb_refl. simpl.
  rewrite filter_absent by exact Hnew. now rewrite app_nil_r.
Qed.

(** [deleteDomainFromDistracting(d)]: afterwards [d] is no longer
    distracting, so the gate lets every URL on [d] through; every other
    host keeps its status, and the tab list and the browser are left
    alone. *)
Theorem delete_domain_effect (d : string) (w : World) :
  let w' := snd (deleteDomainFromDistracting d w) in
  isDomainDistracting (sync w') d = false
  /\ (forall d', d' <> d -> isDomainDistracting (sync w') d' = isDomainDistracting (sync w) d')
  /\ (forall (sess : SessionStore) (u : string) (U : URL),
        URL_parse u = Some U -> hostname U = d ->
        onActivated URL_parse extension_id (sync w') sess (Some u) = None)
  /\ distractingTabs (sync w') = distractingTabs (sync w)
  /\ browser w' = browser w.
Proof.
  intros w'.
  assert (Hdis : forall d', isDomainDistracting (sync w') d'
                            = negb (String.eqb d' d) && isDomainDistracting (sync w) d').
  { intros d'. subst w'. unfold isDomainDistracting. simpl. apply includes_filter. }
  assert (Hd : isDomainDistracting (sync w') d = false).
  { rewrite Hdis, String.eqb_refl. reflexivity. }
  split; [exact Hd|]. split; [|split; [|split; reflexivity]].
  - intros d' Hne. rewrite Hdis. now rewrite (proj2 (String.eqb_neq d' d) Hne).
  - intros sess u U HU <-.
    destruct (String.eqb u "") eqn:E.
    + apply String.eqb_eq in E. subst u. reflexivity.
    + apply String.eqb_neq in E.
      rewrite (onActivated_parsed URL_parse extension_id _ sess u U E HU), Hd. simpl.
      now destruct (String.eqb (protocol U) "chrome-extension:").
Qed.

End Registry.

(** [deleteTabFromDistracting(tab)]: the entries with the tab's URL go
    and all others stay; a tab without a URL leaves the list as it was
    (written back, [[]] when absent). *)
Theorem delete_tab_effect (tab : Tab) (w : World) :
  let w' := snd (deleteTabFromDistracting tab w) in
  let ts := default [] (distractingTabs (sync w)) in
  (forall u, url tab = Some u ->
     forall t, In t (default [] (distractingTabs (sync w'))) <-> In t ts /\ info_url t <> u)
  /\ (url tab = None -> distractingTabs (sync w') = Some ts)
  /\ distractingDomains (sync w') = distractingDomains (sync w)
  /\ browser w' = browser w.
Proof.
  intros w' ts. subst w'. unfold deleteTabFromDistracting, bind, get_sync, modify_sync. simpl.
  fold ts. split; [|split; [|split; reflexivity]].
  - intros u Hu t. rewrite Hu, filter_In.
    rewrite negb_true_iff, String.eqb_neq. reflexivity.
  - intros Hu. rewrite Hu. f_equal. clear. induction ts as [|t ts IH]; simpl; congruence.
Qed.

(** [saveTabAsDistracting(tab)] for an http(s) URL [u]: the stored list
    only grows at its end, holds [u] afterwards, and stays free of
    duplicate URLs when it was. *)
Theorem save_tab_effect (tab : Tab) (u : string) (w : World)
  (Hurl : url tab = Some u) (Hhttp : String.prefix "http" u = true) :
  let ts := default [] (distractingTabs (sync w)) in
  let ts' := default [] (distractingTabs (sync (snd (saveTabAsDistracting tab w)))) in
  (exists sfx, ts' = (ts ++ sfx)%list)
  /\ In u (map info_url ts')
  /\ (NoDup (map info_url ts) -> NoDup (map info_url ts')).
Proof.
  intros ts ts'. subst ts'. unfold saveTabAsDistracting.
  rewrite Hurl, (http_url_some u Hhttp). unfold bind, get_sync. simpl. fold ts.
  destruct (existsb (fun t => String.eqb (info_url t) u) ts) eqn:E.
  - simpl. split; [exists []; now rewrite app_nil_r|]. split; [|tauto].
    apply existsb_exists in E as (t & Ht & Eu). apply String.eqb_eq in Eu.
    apply in_map_iff. exists t. auto.
  - simpl. split; [eexists; reflexivity|].
    rewrite map_app. simpl. split.
    + apply in_or_app. right. now left.
    + intros Hn. rewrite <- Permutation_cons_append. apply NoDup_cons. split; [|exact Hn].
      rewrite list_elem_of_In. intros Hin. apply in_map_iff in Hin as (t & Eu & Ht).
      assert (Hc : existsb (fun t => String.eqb (info_url t) u) ts = true).
      { apply existsb_exists. exists t. split; [exact Ht|]. rewrite Eu. apply String.eqb_refl. }
      congruence.
Qed.

End RegistryMore.

(* ------------------------------------------------------------------ *)
(** ** Grouping and the context menu *)

Module GroupTabMore.
Import GroupingFacts.

Lemma existsb_open (tid : nat) (l : list nat) : existsb (Nat.eqb tid) l = true <-> In tid l.
Proof.
  rewrite existsb_exists. split.
  - intros (x & Hx & E). apply Nat.eqb_eq in E. now subst.
  - intros H. exists tid. split; [exact H | apply Nat.eqb_refl].
Qed.

Lemma existsb_closed (tid : nat) (l : list nat) : ~ In tid l -> existsb (Nat.eqb tid) l = false.
Proof.
  intros H. destruct (existsb (Nat.eqb tid) l) eqn:E; [|reflexivity].
  apply existsb_open in E. contradiction.
Qed.

Lemma groupOf_set_same (tid gid : nat) (b : BrowserState) :
  groupOf (set_group_of tid gid b) tid = Some gid.
Proof. unfold groupOf, set_group_of. simpl. now rewrite Nat.eqb_refl. Qed.

Lemma find_filter_other (tid t' : nat) (l : list (nat * nat)) :
  t' <> tid ->
  find (fun p => Nat.eqb (fst p) t') (List.filter (fun p => negb (Nat.eqb (fst p) tid)) l)
  = find (fun p => Nat.eqb (fst p) t') l.
Proof.
  intros Hne. induction l as [|[a g] l IH]; simpl; [reflexivity|].
  destruct (Nat.eqb a tid) eqn:E; simpl.
  - apply Nat.eqb_eq in E. subst a.
    rewrite (proj2 (Nat.eqb_neq tid t')) by congruence. exact IH.
  - destruct (Nat.eqb a t'); [reflexivity | exact IH].
Qed.

Lemma groupOf_set_other (tid gid t' : nat) (b : BrowserState) :
  t' <> tid -> groupOf (set_group_of tid gid b) t' = groupOf b t'.
Proof.
  intros Hne. unfold groupOf, set_group_of. simpl.
  rewrite (proj2 (Nat.eqb_neq tid t')) by congruence.
  now rewrite find_filter_other.
Qed.

Lemma filter_nil_In {A} (f : A -> bool) (l : list A) (x : A) :
  List.filter f l = [] -> In x l -> f x = false.
Proof.
  intros H Hx. destruct (f x) eqn:E; [|reflexivity].
  assert (Hin : In x (List.filter f l)) by (apply filter_In; auto).
  rewrite H in Hin. contradiction.
Qed.

Lemma groupOf_In (b : BrowserState) (t' x : nat) :
  groupOf b t' = Some x -> In (t', x) (group_of b).
Proof.
  unfold groupOf. destruct (find _ (group_of b)) as [[a y]|] eqn:E; [|discriminate].
  intros [= <-]. apply find_some in E as [Hin Ha]. simpl in Ha.
  apply Nat.eqb_eq in Ha. now subst a.
Qed.

Lemma set_group_of_incl tid gid b : incl (tab_groups (set_group_of tid gid b)) (tab_groups b).
Proof.
  intros g. unfold set_group_of. simpl.
  destruct (groupOf b tid) as [old|]; [|auto].
  destruct (_ || _); [auto|]. intros H. now apply filter_In in H.
Qed.

(** A group stays unless it is the one the tab leaves and no other tab
    is listed in it. *)
Lemma set_group_of_keeps tid gid b g :
  In g (tab_groups b) ->
  (groupOf b tid <> Some (group_id g) \/ group_id g = gid
   \/ exists p, In p (group_of b) /\ fst p <> tid /\ snd p = group_id g) ->
  In g (tab_groups (set_group_of tid gid b)).
Proof.
  intros Hin Hc. unfold set_group_of. simpl.
  destruct (groupOf b tid) as [old|] eqn:Ho; [|exact Hin].
  destruct (Nat.eqb old gid || existsb _ _) eqn:E; [exact Hin|].
  apply orb_false_iff in E as [E1 E2].
  apply filter_In. split; [exact Hin|].
  destruct (Nat.eqb (group_id g) old) eqn:E3; [|reflexivity].
  apply Nat.eqb_eq in E3. subst old. exfalso.
  destruct Hc as [Hc|[Hc|(p & Hp & Hf & Hs)]].
  - now apply Hc.
  - rewrite Hc, Nat.eqb_refl in E1. discriminate.
  - assert (Hx : existsb (fun p => Nat.eqb (snd p) (group_id g))
                   (List.filter (fun p => negb (Nat.eqb (fst p) tid)) (group_of b)) = true).
    { apply existsb_exists. exists p. split.
      - apply filter_In. split; [exact Hp|]. apply negb_true_iff, Nat.eqb_neq. exact Hf.
      - rewrite Hs. apply Nat.eqb_refl. }
    rewrite Hx in E2. discriminate.
Qed.

(** The group the tab leaves is closed when no other tab is listed in it. *)
Lemma set_group_of_closes tid gid b old :
  groupOf b tid = Some old -> old <> gid ->
  (forall p, In p (group_of b) -> fst p <> tid -> snd p <> old) ->
  forall g, In g (tab_groups (set_group_of tid gid b)) -> group_id g <> old.
Proof.
  intros Ho Hne Hnone g. unfold set_group_of. simpl. rewrite Ho.
  rewrite (proj2 (Nat.eqb_neq old gid) Hne). simpl.
  replace (existsb _ _) with false.
  2:{ symmetry. apply not_true_iff_false. intros Hx. apply existsb_exists in Hx as (p & Hp & Hs).
      apply filter_In in Hp as [Hp Hf]. apply negb_true_iff, Nat.eqb_neq in Hf.
      apply Nat.eqb_eq in Hs. exact (Hnone p Hp Hf Hs). }
  intros Hg. apply filter_In in Hg as [_ Hg]. apply negb_true_iff, Nat.eqb_neq in Hg. exact Hg.
Qed.

Lemma groupOf_retitle gid t c b x : groupOf (retitle_group gid t c b) x = groupOf b x.
Proof. reflexivity. Qed.

Lemma retitle_in gid t c b g :
  In g (tab_groups (retitle_group gid t c b)) ->
  group_id g = gid \/ (In g (tab_groups b) /\ group_id g <> gid).
Proof.
  simpl. intros Hg. apply in_map_iff in Hg as (h & Eh & Hh).
  destruct (Nat.eqb (group_id h) gid) eqn:E.
  - left. now subst g.
  - right. subst g. split; [exact Hh|]. now apply Nat.eqb_neq.
Qed.

Lemma retitle_keeps gid t c b g :
  In g (tab_groups b) -> group_id g <> gid -> In g (tab_groups (retitle_group gid t c b)).
Proof.
  intros Hg Hne. simpl. apply in_map_iff. exists g. split; [|exact Hg].
  now rewrite (proj2 (Nat.eqb_neq _ _) Hne).
Qed.

Lemma retitle_new gid t c b g :
  In g (tab_groups b) -> group_id g = gid ->
  In {| group_id := gid; group_title := t; group_color := c; group_window := group_window g |}
     (tab_groups (retitle_group gid t c b)).
Proof.
  intros Hg Heq. simpl. apply in_map_iff. exists g. split; [|exact Hg].
  now rewrite Heq, Nat.eqb_refl.
Qed.

Lemma group_new_eq tid win w :
  groupable (browser w) tid = true ->
  tabs_group_new tid win w
  = (Ok (next_group_id (browser w)),
     {| browser := set_group_of tid (next_group_id (browser w))
                     (new_group (next_group_id (browser w)) win (browser w));
        sync := sync w |}).
Proof. intros H. unfold tabs_group_new, bind, get_browser. cbn beta iota. now rewrite H. Qed.

Lemma new_group_exists gid win b : group_exists (new_group gid win b) gid = true.
Proof.
  unfold group_exists. simpl. rewrite existsb_app. simpl.
  now rewrite Nat.eqb_refl, orb_true_r.
Qed.

Section GroupTab.
Variable URL_parse : string -> option URL.

Lemma saveDomain_browser (u : option string) (w : World) :
  browser (snd (saveDomainAsDistracting URL_parse u w)) = browser w.
Proof.
  unfold saveDomainAsDistracting. destruct (http_url u); [|reflexivity].
  destruct (URL_parse _); [|reflexivity].
  unfold bind, get_sync. simpl. destruct (includes _ _); reflexivity.
Qed.

Lemma saves_browser (tab : Tab) (w : World) :
  browser (snd ((saveDomainAsDistracting URL_parse (url tab) ;;; saveTabAsDistracting tab) w))
  = browser w.
Proof.
  unfold bind. pose proof (saveDomain_browser (url tab) w) as H.
  destruct (saveDomainAsDistracting URL_parse (url tab) w) as [[]] eqn:E; simpl in *; [|exact H].
  rewrite (proj1 (saveTab_frame tab _)). exact H.
Qed.

Lemma groupTab_browser_existing (tab : Tab) (isProductive : bool) (w : World) (g : TabGroup)
  (gs : list TabGroup) :
  groupable (browser w) (tab_id tab) = true ->
  groups_titled (browser w) (if isProductive then PRODUCTIVE_TITLE else DISTRACTING_TITLE)
    (windowId tab) = g :: gs ->
  browser (snd (groupTab URL_parse tab isProductive w))
  = set_group_of (tab_id tab) (group_id g) (browser w).
Proof.
  intros Hgr Hf. unfold groupTab, try_catch. cbv zeta. simpl snd.
  rewrite (bind_ok _ _ w _ w (query_ok _ _ w)). unfold groups_titled in Hf. rewrite Hf.
  pose proof (filter_head_exists _ _ _ _ Hf) as Hg.
  rewrite (bind_ok (ret (group_id g)) _ w (group_id g) w eq_refl).
  rewrite (bind_ok _ _ _ _ _ (into_ok (tab_id tab) (group_id g) w Hgr Hg)).
  destruct isProductive; [reflexivity|]. apply saves_browser.
Qed.

Lemma groupTab_browser_new (tab : Tab) (isProductive : bool) (w : World) :
  groupable (browser w) (tab_id tab) = true ->
  groups_titled (browser w) (if isProductive then PRODUCTIVE_TITLE else DISTRACTING_TITLE)
    (windowId tab) = [] ->
  let gid := next_group_id (browser w) in
  let t := if isProductive then PRODUCTIVE_TITLE else DISTRACTING_TITLE in
  let c := if isProductive then PRODUCTIVE_COLOR else DISTRACTING_COLOR in
  browser (snd (groupTab URL_parse tab isProductive w))
  = set_group_of (tab_id tab) gid
      (retitle_group gid t c
         (set_group_of (tab_id tab) gid (new_group gid (windowId tab) (browser w)))).
Proof.
  intros Hgr Hq gid t c. unfold groupTab, try_catch. cbv zeta. simpl snd.
  rewrite (bind_ok _ _ w _ w (query_ok _ _ w)). unfold groups_titled in Hq. rewrite Hq.
  set (b1 := set_group_of (tab_id tab) gid (new_group gid (windowId tab) (browser w))).
  assert (G1 : group_exists (browser {| browser := b1; sync := sync w |}) gid = true)
    by (apply set_group_of_exists, new_group_exists).
  pose proof (proj2 (proj2 (update_ok gid t c _ G1))) as G2. simpl browser in G2.
  assert (Ein : bind (tabs_group_new (tab_id tab) (windowId tab))
                  (fun newGroupId => tabGroups_update newGroupId t c ;;; ret newGroupId) w
                = (Ok gid, {| browser := retitle_group gid t c b1; sync := sync w |})).
  { rewrite (bind_ok _ _ _ _ _ (group_new_eq (tab_id tab) (windowId tab) w Hgr)).
    rewrite (bind_ok _ _ _ _ _ (proj1 (update_ok gid t c _ G1))). reflexivity. }
  rewrite (bind_ok _ _ _ _ _ Ein).
  rewrite (bind_ok _ _ _ _ _
             (into_ok (tab_id tab) gid
                {| browser := retitle_group gid t c b1; sync := sync w |} Hgr G2)).
  destruct isProductive; [reflexivity|].
  apply (saves_browser tab).
Qed.

(** [groupTab(tab, isProductive)] on a tab that can be grouped (open, in
    a window that supports tab groups): the tabs are unchanged and the
    tab ends up in a group of its own window carrying the title for
    [isProductive]; the group of every other tab is unchanged. The
    first such group is reused; only when none exists is one new group
    created, with the matching color and the next group id. Every other
    group stays, except the one the tab leaves when no other tab is
    listed in it: the browser closes that group. *)
Theorem groupTab_open_tab (tab : Tab) (isProductive : bool) (w : World)
  (Hgroupable : groupable (browser w) (tab_id tab) = true) :
  let t := if isProductive then PRODUCTIVE_TITLE else DISTRACTING_TITLE in
  let c := if isProductive then PRODUCTIVE_COLOR else DISTRACTING_COLOR in
  let b := browser w in
  let b' := browser (snd (groupTab URL_parse tab isProductive w)) in
  same_tabs b b'
  /\ (exists g, In g (tab_groups b') /\ group_title g = t /\ group_window g = windowId tab
                /\ groupOf b' (tab_id tab) = Some (group_id g))
  /\ (forall t', t' <> tab_id tab -> groupOf b' t' = groupOf b t')
  /\ (forall g, In g (tab_groups b) -> group_id g <> next_group_id b ->
        (groupOf b (tab_id tab) <> Some (group_id g)
         \/ exists t', t' <> tab_id tab /\ groupOf b t' = Some (group_id g)) ->
        In g (tab_groups b'))
  /\ (forall old, groupOf b (tab_id tab) = Some old -> groupOf b' (tab_id tab) <> Some old ->
        (forall p, In p (group_of b) -> fst p <> tab_id tab -> snd p <> old) ->
        forall g, In g (tab_groups b') -> group_id g <> old)
  /\ match groups_titled b t (windowId tab) with
     | [] => next_group_id b' = S (next_group_id b)
             /\ groupOf b' (tab_id tab) = Some (next_group_id b)
             /\ In {| group_id := next_group_id b; group_title := t; group_color := c;
                      group_window := windowId tab |} (tab_groups b')
             /\ (forall g, In g (tab_groups b') -> group_id g <> next_group_id b ->
                           In g (tab_groups b))
     | g0 :: _ => next_group_id b' = next_group_id b
                  /\ groupOf b' (tab_id tab) = Some (group_id g0)
                  /\ incl (tab_groups b') (tab_groups b)
     end.
Proof.
  intros t c b b'. unfold b in *.
  assert (Hother : forall g, (exists t', t' <> tab_id tab /\ groupOf (browser w) t' = Some (group_id g)) ->
                     exists p, In p (group_of (browser w)) /\ fst p <> tab_id tab
                               /\ snd p = group_id g).
  { intros g (t' & Hne & Ht'). exists (t', group_id g). split; [now apply groupOf_In|].
    split; [exact Hne | reflexivity]. }
  destruct (groups_titled (browser w) t (windowId tab)) as [|g0 gs] eqn:Hq.
  - pose proof (groupTab_browser_new tab isProductive w Hgroupable Hq) as Hb. cbv zeta in Hb.
    subst b'. rewrite Hb. clear Hb.
    set (gid := next_group_id (browser w)).
    set (ng := {| group_id := gid; group_title := ""; group_color := "grey";
                  group_window := windowId tab |}).
    set (b1 := set_group_of (tab_id tab) gid (new_group gid (windowId tab) (browser w))).
    set (b2 := retitle_group gid t c b1).
    assert (Hng1 : In ng (tab_groups b1)).
    { apply set_group_of_keeps; [|right; left; reflexivity].
      simpl. apply in_or_app. right. now left. }
    assert (Hnew : In {| group_id := gid; group_title := t; group_color := c;
                         group_window := windowId tab |} (tab_groups (set_group_of (tab_id tab) gid b2))).
    { apply set_group_of_keeps; [|right; left; reflexivity].
      exact (retitle_new gid t c b1 ng Hng1 eq_refl). }
    split; [split; reflexivity|].
    split; [|split; [|split; [|split]]].
    + eexists. split; [exact Hnew|]. split; [reflexivity|]. split; [reflexivity|].
      apply groupOf_set_same.
    + intros t' Hne. rewrite groupOf_set_other by exact Hne.
      exact (groupOf_set_other (tab_id tab) gid t' (new_group gid (windowId tab) (browser w)) Hne).
    + intros g Hin Hid Hc.
      apply set_group_of_keeps; [|left; unfold b2, b1; rewrite groupOf_retitle, groupOf_set_same; congruence].
      apply retitle_keeps; [|exact Hid].
      apply set_group_of_keeps; [simpl; apply in_or_app; now left|].
      destruct Hc as [Hc|Hc]; [now left | right; right; exact (Hother g Hc)].
    + intros old Ho Hne Hnone g Hg.
      rewrite groupOf_set_same in Hne.
      apply set_group_of_incl in Hg. apply retitle_in in Hg as [Hg|[Hg _]].
      * rewrite Hg. congruence.
      * exact (set_group_of_closes (tab_id tab) gid (new_group gid (windowId tab) (browser w)) old
                 Ho (fun E => Hne (f_equal Some (eq_sym E))) Hnone g Hg).
    + split; [reflexivity|]. split; [apply groupOf_set_same|]. split; [exact Hnew|].
      intros g Hg Hid. apply set_group_of_incl in Hg.
      apply retitle_in in Hg as [Hg|[Hg _]]; [contradiction|].
      apply set_group_of_incl in Hg. simpl in Hg. apply in_app_or in Hg as [Hg|[Hg|[]]].
      * exact Hg.
      * subst g. contradiction.
  - assert (Hin : In g0 (List.filter (fun g => String.eqb (group_title g) t
                                               && Nat.eqb (group_window g) (windowId tab))
                                     (tab_groups (browser w)))).
    { unfold groups_titled in Hq. rewrite Hq. now left. }
    apply filter_In in Hin as [Hin Hp]. apply andb_prop in Hp as [Ht Hw].
    apply String.eqb_eq in Ht. apply Nat.eqb_eq in Hw.
    pose proof (groupTab_browser_existing tab isProductive w g0 gs Hgroupable Hq) as Hb.
    subst b'. rewrite Hb. clear Hb.
    split; [split; reflexivity|]. split; [|split; [|split; [|split]]].
    + exists g0. split; [apply set_group_of_keeps; [exact Hin | right; left; reflexivity]|].
      split; [exact Ht|]. split; [exact Hw|]. apply groupOf_set_same.
    + intros t' Hne. now apply groupOf_set_other.
    + intros g Hg _ Hc. apply set_group_of_keeps; [exact Hg|].
      destruct Hc as [Hc|Hc]; [now left | right; right; exact (Hother g Hc)].
    + intros old Ho Hne Hnone.
      rewrite groupOf_set_same in Hne.
      apply (set_group_of_closes _ _ _ old Ho); [|exact Hnone].
      intros E. apply Hne. now rewrite E.
    + split; [reflexivity|]. split; [apply groupOf_set_same|]. apply set_group_of_incl.
Qed.

(** A tab closed before [groupTab] runs: the first grouping call fails
    and the error is caught before anything changed. *)
Theorem groupTab_closed_tab (tab : Tab) (isProductive : bool) (w : World)
  (Hclosed : ~ In (tab_id tab) (open_tabs (browser w))) :
  groupTab URL_parse tab isProductive w = (Ok tt, w).
Proof.
  apply existsb_closed in Hclosed.
  assert (Hg : groupable (browser w) (tab_id tab) = false)
    by (unfold groupable; now rewrite Hclosed).
  unfold groupTab, try_catch. cbv zeta. f_equal.
  rewrite (bind_ok _ _ w _ w (query_ok _ _ w)).
  destruct (List.filter _ _) as [|g gs].
  - unfold tabs_group_new, bind, get_browser. cbn beta iota. rewrite Hg. reflexivity.
  - unfold tabs_group_into. unfold ret, bind, get_browser. cbn beta iota.
    rewrite Hg. reflexivity.
Qed.

(** An http address that [new URL] rejects: [saveDomainAsDistracting]
    throws, the throw skips [saveTabAsDistracting], and marking the tab
    distracting records neither its host nor the tab, whether or not
    the grouping calls succeed. *)
Theorem groupTab_unparsable_url (tab : Tab) (u : string) (w : World)
  (Hurl : url tab = Some u) (Hhttp : String.prefix "http" u = true)
  (Hbad : URL_parse u = None) :
  sync (snd (groupTab URL_parse tab false w)) = sync w.
Proof.
  assert (Hd : saveDomainAsDistracting URL_parse (url tab) = throw).
  { unfold saveDomainAsDistracting. now rewrite Hurl, (http_url_some u Hhttp), Hbad. }
  unfold groupTab. cbv zeta. simpl negb. rewrite sync_try_catch. apply keeps_apply.
  rewrite Hd.
  apply keeps_bind; [apply keeps_query | intros gs].
  apply keeps_bind; [|intros gid; apply keeps_bind; [apply keeps_group_into | intros _]].
  - destruct gs; [|apply keeps_ret].
    apply keeps_bind; [apply keeps_group_new | intros gid].
    apply keeps_bind; [apply keeps_update | intros _; apply keeps_ret].
  - intros w'. reflexivity.
Qed.

Lemma keeps_try_catch (m : M unit) : keeps_sync m -> keeps_sync (try_catch m).
Proof. intros H w. exact (H w). Qed.

Lemma keeps_tabs_get tid : keeps_sync (tabs_get tid).
Proof.
  unfold tabs_get. apply keeps_bind; [apply keeps_get_browser | intros b].
  destruct (existsb _ _); [apply keeps_ret | apply keeps_throw].
Qed.

Lemma keeps_groupTab_productive (tab : Tab) : keeps_sync (groupTab URL_parse tab true).
Proof.
  unfold groupTab. cbv zeta. simpl negb. apply keeps_try_catch.
  apply keeps_bind; [apply keeps_query | intros gs].
  apply keeps_bind; [|intros gid; apply keeps_bind; [apply keeps_group_into | intros _; apply keeps_ret]].
  destruct gs; [|apply keeps_ret].
  apply keeps_bind; [apply keeps_group_new | intros gid].
  apply keeps_bind; [apply keeps_update | intros _; apply keeps_ret].
Qed.

(** The context menu on a tab closed in the meantime: [chrome.tabs.get]
    fails, the error is caught and nothing changes. *)
Theorem contextMenu_closed_tab (menuItemId : string) (tab : Tab) (w : World)
  (Hclosed : ~ In (tab_id tab) (open_tabs (browser w))) :
  contextMenus_onClicked URL_parse menuItemId tab w = (Ok tt, w).
Proof.
  apply existsb_closed in Hclosed.
  unfold contextMenus_onClicked, try_catch, tabs_get, bind, get_browser. simpl.
  now rewrite Hclosed.
Qed.

(** Only the "markDistracting" item can write to sync storage: any other
    menu item, "markProductive" included, leaves both lists as they
    were; an item that is neither of the two changes nothing at all. *)
Theorem contextMenu_sync_only_distracting (menuItemId : string) (tab : Tab) (w : World)
  (Hnot : menuItemId <> "markDistracting") :
  sync (snd (contextMenus_onClicked URL_parse menuItemId tab w)) = sync w
  /\ (menuItemId <> "markProductive" ->
      contextMenus_onClicked URL_parse menuItemId tab w = (Ok tt, w)).
Proof.
  split.
  - unfold contextMenus_onClicked. rewrite sync_try_catch. apply keeps_apply.
    apply keeps_bind; [apply keeps_tabs_get | intros _].
    destruct (String.eqb menuItemId "markProductive"); [apply keeps_groupTab_productive|].
    rewrite (proj2 (String.eqb_neq _ _) Hnot). apply keeps_ret.
  - intros Hnp. unfold contextMenus_onClicked, try_catch, tabs_get, bind, get_browser. simpl.
    rewrite (proj2 (String.eqb_neq _ _) Hnp), (proj2 (String.eqb_neq _ _) Hnot).
    now destruct (existsb _ _).
Qed.

End GroupTab.
End GroupTabMore.

(* ------------------------------------------------------------------ *)
(** ** Lock gate: registry and session *)

Module LockGateMore.
Import LockGateFacts.

Lemma sessionKey_inj (d1 d2 : string) : sessionKey d1 = sessionKey d2 -> d1 = d2.
Proof. unfold sessionKey. apply String.app_inj. Qed.

Section GateMore.
Variable URL_parse : string -> option URL.
Variable extension_id : string.

(** With no host stored (the key absent or an empty list), the gate
    never redirects, whatever the tab and the session. *)
Theorem empty_registry_no_redirect (sync : SyncStore)
  (Hempty : default [] (distractingDomains sync) = []) :
  forall (sess : SessionStore) (tab_url : option string),
    onActivated URL_parse extension_id sync sess tab_url = None.
Proof.
  intros sess tab_url. unfold onActivated.
  destruct (truthy_string tab_url) as [u|]; [|reflexivity].
  destruct (URL_parse u) as [U|]; [|reflexivity].
  unfold isDomainDistracting. rewrite Hempty. simpl.
  now destruct (String.eqb (protocol U) "chrome-extension:").
Qed.

(** Unlocking is per host: a click on the lock page for a target on one
    host leaves the gate's decision for every URL on another host as it
    was before the click. *)
Theorem unlock_is_per_host (sync : SyncStore) (unlockPin : option string)
  (target u : string) (T U : URL) (st : LockPageState)
  (HT : URL_parse target = Some T) (HU : URL_parse u = Some U)
  (Hother : hostname U <> hostname T) :
  onActivated URL_parse extension_id sync
    (session (unlockBtn_click URL_parse unlockPin (Some target) st)) (Some u)
  = onActivated URL_parse extension_id sync (session st) (Some u).
Proof.
  destruct (String.eqb u "") eqn:E.
  - apply String.eqb_eq in E. subst u. reflexivity.
  - apply String.eqb_neq in E.
    rewrite !(onActivated_parsed URL_parse extension_id sync _ u U E HU).
    unfold unlockBtn_click.
    destruct (match unlockPin with Some p => String.eqb (pinInput_value st) p | None => false end);
      [|reflexivity].
    simpl default. rewrite HT. simpl session.
    rewrite lookup_insert_ne; [reflexivity|].
    intros Hk. apply Hother. symmetry. now apply sessionKey_inj.
Qed.

End GateMore.
End LockGateMore.

(* ------------------------------------------------------------------ *)
(** ** Task page handlers *)

Module TaskMore.
Import Tasks TaskFacts QueryFacts.

Lemma trim_start_blank (s : string) : string_forall is_js_space s = true -> trim_start s = "".
Proof.
  induction s as [|c s IH]; simpl; [reflexivity|].
  intros H. apply andb_prop in H as [Hc Hs]. rewrite Hc. exact (IH Hs).
Qed.

Lemma trim_blank (s : string) : string_forall is_js_space s = true -> trim s = "".
Proof. intros H. unfold trim. now rewrite trim_start_blank. Qed.

Lemma trim_end_head (s : string) (c : ascii) (r : string) :
  trim_end s = String c r -> exists r', s = String c r'.
Proof.
  destruct s as [|a s]; simpl; [discriminate|].
  destruct (String.eqb (trim_end s) "" && is_js_space a); [discriminate|].
  intros [= -> _]. eauto.
Qed.

Lemma trim_start_head (s : string) (c : ascii) (r : string) :
  trim_start s = String c r -> is_js_space c = false.
Proof.
  induction s as [|a s IH]; simpl; [discriminate|].
  destruct (is_js_space a) eqn:E; [exact IH|]. now intros [= <- _].
Qed.

Lemma trim_end_last (s pre : string) (c : ascii) :
  trim_end s = pre ++ String c "" -> is_js_space c = false.
Proof.
  revert pre. induction s as [|a s IH]; intros pre; simpl.
  - destruct pre; discriminate.
  - destruct (String.eqb (trim_end s) "" && is_js_space a) eqn:E.
    + destruct pre; discriminate.
    + destruct pre as [|p pre'].
      * rewrite str_app_nil. intros [= <- Hr]. rewrite Hr in E. exact E.
      * rewrite str_app_cons. intros [= _ Hr]. exact (IH pre' Hr).
Qed.

(** What [trim] returns neither starts nor ends with white space. *)
Lemma trim_edges (s : string) :
  (forall c r, trim s = String c r -> is_js_space c = false)
  /\ (forall pre c, trim s = pre ++ String c "" -> is_js_space c = false).
Proof.
  unfold trim. split.
  - intros c r H. destruct (trim_end_head _ _ _ H) as [r' H'].
    exact (trim_start_head _ _ _ H').
  - intros pre c H. exact (trim_end_last _ _ _ H).
Qed.

Lemma saved_in_sync (td : list TaskObj) :
  in_sync {| taskData := td; stored_tasks := Some (SaveTasks td) |}.
Proof. unfold in_sync. simpl. apply map_opt_restore. Qed.

Lemma with_subtasks_cases (i : nat) (f : json -> option json) (p : TaskPage) :
  with_subtasks i f p = p
  \/ exists t subs', taskData p !! i = Some t /\ f (task_subtasks t) = Some subs'
       /\ with_subtasks i f p
          = {| taskData := <[i := set_subtasks subs' t]> (taskData p);
               stored_tasks := Some (SaveTasks (<[i := set_subtasks subs' t]> (taskData p))) |}.
Proof.
  unfold with_subtasks.
  destruct (taskData p !! i) as [t|] eqn:Ht; [|now left].
  destruct (f (task_subtasks t)) as [subs'|] eqn:Hf; [|now left].
  right. exists t, subs'. auto.
Qed.

(** Input that is empty or white space only is ignored by the three
    "add" buttons: nothing is added, saved, or cleared. *)
Theorem blank_input_ignored (v : string) (p : TaskPage) (tIndex : nat)
  (Hblank : string_forall is_js_space v = true) :
  addBtn_click v p = (p, v) /\ addTimedBtn_click v p = (p, v) /\ addSubBtn_click tIndex v p = p.
Proof.
  unfold addBtn_click, addTimedBtn_click, addSubBtn_click. rewrite (trim_blank v Hblank).
  repeat split.
Qed.

(** The "add task" buttons append one task whose text is the trimmed
    input, never empty and without white space at either end, with no
    subtasks (and, for a timed task, the empty deadline); the input is
    cleared and the stored list reloads as the new list. *)
Theorem add_appends_trimmed (v : string) (p : TaskPage) :
  (trim v = "" /\ addBtn_click v p = (p, v) /\ addTimedBtn_click v p = (p, v))
  \/ (trim v <> ""
      /\ (forall c r, trim v = String c r -> is_js_space c = false)
      /\ (forall pre c, trim v = pre ++ String c "" -> is_js_space c = false)
      /\ taskData (fst (addBtn_click v p))
         = (taskData p ++ [Task (Some (JStr (trim v))) (JArr [])])%list
      /\ taskData (fst (addTimedBtn_click v p))
         = (taskData p ++ [TimedTask (Some (JStr (trim v))) (JArr []) (JStr "")])%list
      /\ snd (addBtn_click v p) = "" /\ snd (addTimedBtn_click v p) = ""
      /\ in_sync (fst (addBtn_click v p)) /\ in_sync (fst (addTimedBtn_click v p))).
Proof.
  unfold addBtn_click, addTimedBtn_click.
  destruct (String.eqb (trim v) "") eqn:E.
  - left. apply String.eqb_eq in E. auto.
  - right. apply String.eqb_neq in E. destruct (trim_edges v) as [H1 H2].
    repeat split; auto; apply saved_in_sync.
Qed.

(** Every handler of the task page keeps the in-memory list and the
    stored one in step: a reload after any of them rebuilds the list the
    page shows. *)
Theorem handlers_keep_in_sync (p : TaskPage) (Hsync : in_sync p) :
  forall (v : string) (tIndex sIndex : nat),
    in_sync (fst (addBtn_click v p))
    /\ in_sync (fst (addTimedBtn_click v p))
    /\ in_sync (removeBtn_click tIndex p)
    /\ in_sync (taskText_input tIndex v p)
    /\ in_sync (deadline_input tIndex v p)
    /\ in_sync (addSubBtn_click tIndex v p)
    /\ in_sync (subRemove_click tIndex sIndex p)
    /\ in_sync (subInput_input tIndex sIndex v p).
Proof.
  intros v tIndex sIndex.
  assert (Hws : forall f, in_sync (with_subtasks tIndex f p)).
  { intros f. destruct (with_subtasks_cases tIndex f p) as [-> | (t & s & _ & _ & ->)];
      [exact Hsync | apply saved_in_sync]. }
  unfold addBtn_click, addTimedBtn_click, removeBtn_click, taskText_input, deadline_input,
    addSubBtn_click, subRemove_click, subInput_input.
  repeat split.
  - destruct (String.eqb _ _); [exact Hsync | apply saved_in_sync].
  - destruct (String.eqb _ _); [exact Hsync | apply saved_in_sync].
  - apply saved_in_sync.
  - apply saved_in_sync.
  - destruct (taskData p !! tIndex) as [[]|]; try exact Hsync. apply saved_in_sync.
  - destruct (String.eqb _ _); [exact Hsync | apply Hws].
  - apply Hws.
  - apply Hws.
Qed.

(** Adding a task and then removing the last one (the new task) gives
    back the list the page had. *)
Theorem add_then_remove_last (v : string) (p : TaskPage) (Hv : trim v <> "") :
  taskData (removeBtn_click (length (taskData p)) (fst (addBtn_click v p))) = taskData p
  /\ taskData (removeBtn_click (length (taskData p)) (fst (addTimedBtn_click v p))) = taskData p.
Proof.
  unfold addBtn_click, addTimedBtn_click, removeBtn_click, splice.
  rewrite (proj2 (String.eqb_neq _ _) Hv). simpl.
  rewrite !take_app_length, !drop_ge by (rewrite length_app; simpl; lia).
  split; apply app_nil_r.
Qed.

(** The edits under one task (its text, its deadline, its subtasks)
    change no other task and keep the number of tasks. *)
Theorem edits_stay_in_task (p : TaskPage) (tIndex sIndex : nat) (v : string) :
  forall j, j <> tIndex ->
    taskData (taskText_input tIndex v p) !! j = taskData p !! j
    /\ taskData (deadline_input tIndex v p) !! j = taskData p !! j
    /\ taskData (addSubBtn_click tIndex v p) !! j = taskData p !! j
    /\ taskData (subRemove_click tIndex sIndex p) !! j = taskData p !! j
    /\ taskData (subInput_input tIndex sIndex v p) !! j = taskData p !! j
    /\ length (taskData (taskText_input tIndex v p)) = length (taskData p)
    /\ length (taskData (deadline_input tIndex v p)) = length (taskData p)
    /\ length (taskData (addSubBtn_click tIndex v p)) = length (taskData p)
    /\ length (taskData (subRemove_click tIndex sIndex p)) = length (taskData p)
    /\ length (taskData (subInput_input tIndex sIndex v p)) = length (taskData p).
Proof.
  intros j Hj.
  assert (Hws : forall f, taskData (with_subtasks tIndex f p) !! j = taskData p !! j
                          /\ length (taskData (with_subtasks tIndex f p)) = length (taskData p)).
  { intros f. destruct (with_subtasks_cases tIndex f p) as [-> | (t & s & _ & _ & ->)];
      [split; reflexivity|].
    simpl. split; [apply list_lookup_insert_ne; congruence | apply length_insert]. }
  assert (Hadd : taskData (addSubBtn_click tIndex v p) !! j = taskData p !! j
                 /\ length (taskData (addSubBtn_click tIndex v p)) = length (taskData p)).
  { unfold addSubBtn_click. destruct (String.eqb _ _); [split; reflexivity | apply Hws]. }
  assert (Hdl : taskData (deadline_input tIndex v p) !! j = taskData p !! j
                /\ length (taskData (deadline_input tIndex v p)) = length (taskData p)).
  { unfold deadline_input. destruct (taskData p !! tIndex) as [[]|]; try (split; reflexivity).
    simpl. split; [apply list_lookup_insert_ne; congruence | apply length_insert]. }
  unfold subRemove_click, subInput_input.
  destruct Hadd as [Ha1 Ha2], Hdl as [Hd1 Hd2].
  repeat split; try assumption; try apply Hws.
  - unfold taskText_input. simpl. apply list_lookup_alter_ne. congruence.
  - unfold taskText_input. simpl. apply length_alter.
Qed.

(** Adding a subtask and then removing the last subtask of the same task
    gives back the task list the page had. *)
Theorem addSub_then_remove_last (p : TaskPage) (tIndex : nat) (t : TaskObj) (l : list json)
  (v : string) (Ht : taskData p !! tIndex = Some t) (Hsubs : task_subtasks t = JArr l)
  (Hv : trim v <> "") :
  taskData (subRemove_click tIndex (length l) (addSubBtn_click tIndex v p)) = taskData p.
Proof.
  unfold addSubBtn_click. rewrite (proj2 (String.eqb_neq _ _) Hv).
  unfold with_subtasks at 1. rewrite Ht, Hsubs. simpl.
  unfold subRemove_click, with_subtasks. simpl.
  assert (Hlt : tIndex < length (taskData p)) by (apply lookup_lt_is_Some_1; eauto).
  rewrite list_lookup_insert_eq by exact Hlt.
  assert (Hss : forall s, task_subtasks (set_subtasks s t) = s) by (destruct t; reflexivity).
  rewrite Hss. simpl. unfold splice.
  rewrite take_app_length, drop_ge by (rewrite length_app; simpl; lia).
  rewrite app_nil_r, list_insert_insert.
  assert (Hst : forall s', set_subtasks (JArr l) (set_subtasks s' t) = t)
    by (destruct t; simpl in *; now subst).
  rewrite Hst, decide_True by reflexivity. now apply list_insert_id.
Qed.

Lemma find_key_map_other (k : string) (v : json) (fields : list (string * json)) (k' : string) :
  k' <> k ->
  find (fun f => String.eqb (fst f) k')
    (map (fun f => if String.eqb (fst f) k then (k, v) else f) fields)
  = find (fun f => String.eqb (fst f) k') fields.
Proof.
  intros Hne. induction fields as [|[a x] fields IH]; simpl; [reflexivity|].
  destruct (String.eqb a k) eqn:E; simpl.
  - apply String.eqb_eq in E. subst a.
    rewrite (proj2 (String.eqb_neq k k')) by congruence. exact IH.
  - destruct (String.eqb a k'); [reflexivity | exact IH].
Qed.

Lemma find_key_map_same (k : string) (v : json) (fields : list (string * json)) :
  existsb (fun f => String.eqb (fst f) k) fields = true ->
  find (fun f => String.eqb (fst f) k)
    (map (fun f => if String.eqb (fst f) k then (k, v) else f) fields) = Some (k, v).
Proof.
  induction fields as [|[a x] fields IH]; simpl; [discriminate|].
  destruct (String.eqb a k) eqn:E; simpl.
  - now rewrite String.eqb_refl.
  - rewrite E. exact IH.
Qed.

Lemma find_key_absent (k : string) (fields : list (string * json)) :
  existsb (fun f => String.eqb (fst f) k) fields = false ->
  find (fun f => String.eqb (fst f) k) fields = None.
Proof.
  induction fields as [|[a x] fields IH]; simpl; [reflexivity|].
  destruct (String.eqb a k); [discriminate | exact IH].
Qed.

Lemma find_app {A} (f : A -> bool) (l1 l2 : list A) :
  find f (l1 ++ l2)%list = match find f l1 with Some x => Some x | None => find f l2 end.
Proof.
  induction l1 as [|x l1 IH]; simpl; [reflexivity|].
  destruct (f x); [reflexivity | exact IH].
Qed.

(** [o.k = v] on an object: reading [k] gives [v], every other
    property reads as before. *)
Lemma set_prop_spec (fields : list (string * json)) (k : string) (v : json) :
  exists o', set_prop (JObj fields) k v = Some o'
             /\ prop o' k = Some v
             /\ forall k', k' <> k -> prop o' k' = prop (JObj fields) k'.
Proof.
  unfold set_prop. destruct (existsb (fun f => String.eqb (fst f) k) fields) eqn:E.
  - eexists. split; [reflexivity|]. unfold prop. split.
    + now rewrite find_key_map_same.
    + intros k' Hne. now rewrite find_key_map_other.
  - eexists. split; [reflexivity|]. unfold prop. split.
    + rewrite find_app, find_key_absent by exact E. simpl. now rewrite String.eqb_refl.
    + intros k' Hne. rewrite find_app.
      destruct (find (fun f => String.eqb (fst f) k') fields) as [[]|]; [reflexivity|].
      simpl. now rewrite (proj2 (String.eqb_neq k k')) by congruence.
Qed.

(** Typing in the input of a subtask (an object) sets that subtask's
    "text" and nothing else: its other properties, the task's other
    subtasks and its own text and deadline stay. *)
Theorem subInput_sets_text (p : TaskPage) (tIndex sIndex : nat) (v : string) (t : TaskObj)
  (l : list json) (fields : list (string * json))
  (Ht : taskData p !! tIndex = Some t) (Hsubs : task_subtasks t = JArr l)
  (Hsub : l !! sIndex = Some (JObj fields)) :
  exists o',
    taskData (subInput_input tIndex sIndex v p) !! tIndex
    = Some (set_subtasks (JArr (<[sIndex := o']> l)) t)
    /\ prop o' "text" = Some (JStr v)
    /\ (forall k, k <> "text" -> prop o' k = prop (JObj fields) k).
Proof.
  destruct (set_prop_spec fields "text" (JStr v)) as (o' & Hset & Htext & Hother).
  exists o'. split; [|split; assumption].
  unfold subInput_input, with_subtasks. rewrite Ht, Hsubs, Hsub. rewrite Hset.
  simpl. apply list_lookup_insert_eq. apply lookup_lt_is_Some_1. eauto.
Qed.

End TaskMore.

(* ------------------------------------------------------------------ *)
(** ** The properties above on concrete inputs *)

Module MoreWitnesses.
Import Fixtures Tasks GroupingFacts RegistryMore GroupTabMore LockGateMore TaskMore.

Lemma delete_after_save_restores_witness :
  distractingDomains
    (sync (snd ((saveDomainAsDistracting simple_URL_parse (Some "https://example.com/x") ;;;
                 deleteDomainFromDistracting "example.com") world0)))
  = Some ["news.org"; "video.net"].
Proof.
  exact (delete_after_save_restores simple_URL_parse "https://example.com/x" example_host world0
           eq_refl eq_refl ltac:(simpl; repeat constructor)
           ltac:(simpl; intros [H | [H | []]]; discriminate)).
Defined.

Lemma save_tab_effect_witness :
  In "https://example.com/x"
     (map info_url (default [] (distractingTabs (sync (snd (saveTabAsDistracting tab_https world0)))))).
Proof.
  exact (proj1 (proj2 (save_tab_effect tab_https "https://example.com/x" world0 eq_refl eq_refl))).
Defined.

(** Marked productive, then distracting: the tab moves from group 10 to
    the new group 11, and group 10, left empty, is closed. *)
Lemma groupTab_open_tab_witness :
  groupOf (browser (snd (groupTab simple_URL_parse tab_https true world0))) 1 = Some 10
  /\ groupOf (browser (snd (groupTab simple_URL_parse tab_https false
                 (snd (groupTab simple_URL_parse tab_https true world0))))) 1 = Some 11
  /\ (forall g, In g (tab_groups (browser (snd (groupTab simple_URL_parse tab_https false
                 (snd (groupTab simple_URL_parse tab_https true world0)))))) -> group_id g <> 10).
Proof.
  assert (H1 : groupOf (browser (snd (groupTab simple_URL_parse tab_https true world0))) 1 = Some 10)
    by (vm_compute; reflexivity).
  assert (H2 : groupOf (browser (snd (groupTab simple_URL_parse tab_https false
                 (snd (groupTab simple_URL_parse tab_https true world0))))) 1 = Some 11)
    by (vm_compute; reflexivity).
  split; [exact H1|]. split; [exact H2|].
  destruct (groupTab_open_tab simple_URL_parse tab_https false
              (snd (groupTab simple_URL_parse tab_https true world0)) ltac:(vm_compute; reflexivity))
    as (_ & _ & _ & _ & Hclose & _).
  apply (Hclose 10 H1).
  - change (tab_id tab_https) with 1. rewrite H2. congruence.
  - vm_compute. intros p [<- | []] Hp. contradiction.
Defined.

Lemma groupTab_closed_tab_witness :
  groupTab simple_URL_parse tab_closed false world0 = (Ok tt, world0).
Proof.
  apply groupTab_closed_tab. simpl. intros [H | [H | []]]; discriminate.
Defined.

Lemma groupTab_unparsable_url_witness :
  simple_URL_parse "http//example.com" = None
  /\ sync (snd (groupTab simple_URL_parse tab_bad_http false world0)) = sync world0.
Proof.
  split; [reflexivity|].
  exact (groupTab_unparsable_url simple_URL_parse tab_bad_http "http//example.com" world0
           eq_refl eq_refl eq_refl).
Defined.

Lemma contextMenu_closed_tab_witness :
  contextMenus_onClicked simple_URL_parse "markDistracting" tab_closed world0 = (Ok tt, world0).
Proof.
  apply contextMenu_closed_tab. simpl. intros [H | [H | []]]; discriminate.
Defined.

Lemma contextMenu_sync_only_distracting_witness :
  sync (snd (contextMenus_onClicked simple_URL_parse "markProductive" tab_https world0)) = sync world0
  /\ contextMenus_onClicked simple_URL_parse "openOptions" tab_https world0 = (Ok tt, world0).
Proof.
  split.
  - exact (proj1 (contextMenu_sync_only_distracting simple_URL_parse "markProductive" tab_https
                    world0 ltac:(discriminate))).
  - exact (proj2 (contextMenu_sync_only_distracting simple_URL_parse "openOptions" tab_https
                    world0 ltac:(discriminate)) ltac:(discriminate)).
Defined.

Lemma empty_registry_no_redirect_witness :
  onActivated simple_URL_parse ext_id {| distractingDomains := None; distractingTabs := None |} ∅
    (Some "https://example.com/x") = None.
Proof.
  exact (empty_registry_no_redirect simple_URL_parse ext_id
           {| distractingDomains := None; distractingTabs := None |} eq_refl ∅ _).
Defined.

Lemma unlock_is_per_host_witness :
  onActivated simple_URL_parse ext_id world0.(sync)
    (session (unlockBtn_click simple_URL_parse (Some "1234") (Some "https://news.org/a") lock_page0))
    (Some "https://video.net/b")
  = onActivated simple_URL_parse ext_id world0.(sync) (session lock_page0) (Some "https://video.net/b")
  /\ onActivated simple_URL_parse ext_id world0.(sync) (session lock_page0) (Some "https://video.net/b")
     <> None.
Proof.
  split; [|vm_compute; discriminate].
  exact (unlock_is_per_host simple_URL_parse ext_id (sync world0) (Some "1234")
           "https://news.org/a" "https://video.net/b"
           {| protocol := "https:"; hostname := "news.org" |}
           {| protocol := "https:"; hostname := "video.net" |} lock_page0
           eq_refl eq_refl ltac:(discriminate)).
Defined.

Lemma blank_input_ignored_witness :
  addBtn_click (String "009" " ") task_page0 = (task_page0, String "009" " ").
Proof.
  exact (proj1 (blank_input_ignored (String "009" " ") task_page0 0 eq_refl)).
Defined.

Lemma handlers_keep_in_sync_witness :
  in_sync (subRemove_click 0 0 task_page0) /\ in_sync (fst (addBtn_click " buy milk " task_page0)).
Proof.
  assert (H : in_sync task_page0) by reflexivity.
  destruct (handlers_keep_in_sync task_page0 H " buy milk " 0 0) as (H1 & _ & _ & _ & _ & _ & H7 & _).
  split; assumption.
Defined.

Lemma add_then_remove_last_witness :
  taskData (removeBtn_click 2 (fst (addTimedBtn_click " exam " task_page0))) = taskData task_page0.
Proof.
  exact (proj2 (add_then_remove_last " exam " task_page0 ltac:(vm_compute; discriminate))).
Defined.

Lemma addSub_then_remove_last_witness :
  taskData (subRemove_click 0 1 (addSubBtn_click 0 "ch. 2" task_page0)) = taskData task_page0.
Proof.
  exact (addSub_then_remove_last task_page0 0
           (Task (Some (JStr "read")) (JArr [JObj [("text", JStr "ch. 1")]]))
           [JObj [("text", JStr "ch. 1")]] "ch. 2" eq_refl eq_refl ltac:(vm_compute; discriminate)).
Defined.

Lemma subInput_sets_text_witness :
  exists o', taskData (subInput_input 0 0 "chapter 1" task_page0) !! 0
             = Some (Task (Some (JStr "read")) (JArr [o']))
             /\ prop o' "text" = Some (JStr "chapter 1").
Proof.
  destruct (subInput_sets_text task_page0 0 0 "chapter 1"
              (Task (Some (JStr "read")) (JArr [JObj [("text", JStr "ch. 1")]]))
              [JObj [("text", JStr "ch. 1")]] [("text", JStr "ch. 1")] eq_refl eq_refl eq_refl)
    as (o' & Ho & Ht & _).
  exists o'. split; [exact Ho | exact Ht].
Defined.

Lemma delete_domain_effect_witness :
  isDomainDistracting (sync (snd (deleteDomainFromDistracting "news.org" world0))) "news.org" = false
  /\ isDomainDistracting (sync (snd (deleteDomainFromDistracting "news.org" world0))) "video.net" = true.
Proof.
  destruct (delete_domain_effect simple_URL_parse ext_id "news.org" world0) as (H1 & H2 & _).
  split; [exact H1|]. rewrite (H2 "video.net" ltac:(discriminate)). reflexivity.
Defined.

Lemma delete_tab_effect_witness :
  existsb (fun t => String.eqb (info_url t) "https://example.com/x")
    (default [] (distractingTabs (sync (snd (deleteTabFromDistracting tab_https
       (snd (saveTabAsDistracting tab_https world0))))))) = false.
Proof.
  destruct (existsb _ _) eqn:E; [|reflexivity].
  apply existsb_exists in E as (t & Ht & Eu). apply String.eqb_eq in Eu.
  destruct (proj2 (proj1 (proj1 (delete_tab_effect tab_https (snd (saveTabAsDistracting tab_https world0)))
                         "https://example.com/x" eq_refl t) Ht) Eu).
Defined.

Lemma add_appends_trimmed_witness :
  taskData (fst (addBtn_click " buy milk " task_page0))
  = (taskData task_page0 ++ [Task (Some (JStr "buy milk")) (JArr [])])%list.
Proof.
  destruct (add_appends_trimmed " buy milk " task_page0) as [[H _] | (_ & _ & _ & H & _)].
  - vm_compute in H. discriminate.
  - exact H.
Defined.

Lemma edits_stay_in_task_witness :
  taskData (addSubBtn_click 0 "ch. 2" task_page0) !! 1 = taskData task_page0 !! 1.
Proof.
  exact (proj1 (proj2 (proj2 (edits_stay_in_task task_page0 0 0 "ch. 2" 1 ltac:(discriminate))))).
Defined.

End MoreWitnesses.
